(** * Reisefuehrer: cache store, relevance merge and location hook

    A shallow embedding of the TypeScript core of the travel guide app:
    - [StorageService]  (src/services/storage.service.ts),
    - [OpenAIService]   (src/services/openai.service.ts),
    - [LocationService] (src/services/location.service.ts),
    - [UseLocation]     (src/hooks/useLocation.ts).

    Asynchronous functions are embedded as computations in a state and
    exception monad: every [await] is a sequencing point, a rejected
    promise is a [Throw], and the platform the code talks to (AsyncStorage,
    JSON, the clock, axios, expo-location) is an interface whose
    implementation is left open.  Types follow the TypeScript
    declarations of src/types/index.ts.

    The model comes first, then the vocabulary of the statements
    ([StorageTerms], [OpenAITerms], [LocationTerms]), then the properties
    ([EntryTextFacts], [StorageFacts], [OpenAIFacts], [LocationFacts]) and
    their concrete runs.  The exported storage helpers, the description
    cache, the location search and the cards of the home screen are
    modelled after the hook, with their properties at the end
    ([StorageExtras], [DescriptionCacheFacts], [OpenAIExtras],
    [LocationExtras]). *)

From stdpp Require Import gmap strings list sorting.
From Stdlib Require Import Ascii String DecimalString DecimalPos ZArith QArith Lia.
From Stdlib Require OrdersEx.

Open Scope Z_scope.

(** ** The host language *)

Module Js.

(** An [Error] object: only its [message] is ever inspected. *)
Record Error := mkError { message : string }.

(** The completion of an evaluation: a value or a thrown error. *)
Inductive outcome (A : Type) : Type :=
| Ok (a : A)
| Throw (e : Error).
Arguments Ok {A} a.
Arguments Throw {A} e.

(** Finite JavaScript numbers.  Timestamps and durations are integral
    and kept in [Z]; every other number is only moved around or tested
    for truthiness and is kept as a rational. *)
Definition number : Type := Q.

(** [ToBoolean] on a number ([0] is falsy) and on a string (the empty
    string is falsy). *)
Definition truthy_number (n : number) : bool := negb (Qnum n =? 0)%Z.

Definition truthy_string (s : string) : bool :=
  match s with EmptyString => false | String _ _ => true end.

(** [x || d] where [x] may be [undefined]. *)
Definition or_number (x : option number) (d : number) : number :=
  match x with
  | Some v => if truthy_number v then v else d
  | None => d
  end.

Definition or_string (x : option string) (d : string) : string :=
  match x with
  | Some v => if truthy_string v then v else d
  | None => d
  end.

(** One line written by [console.error(label, error)]. *)
Record LogLine := mkLogLine { label : string; logged : Error }.

(** Computations over a world [W]: the result and the world after. *)
Definition M (W A : Type) : Type := W -> outcome A * W.

Definition ret {W A} (a : A) : M W A := fun w => (Ok a, w).

Definition throw {W A} (e : Error) : M W A := fun w => (Throw e, w).

Definition bind {W A B} (c : M W A) (k : A -> M W B) : M W B :=
  fun w =>
    match c w with
    | (Ok a, w') => k a w'
    | (Throw e, w') => (Throw e, w')
    end.

(** [try { body } catch (error) { handler }] *)
Definition try_catch {W A} (body : M W A) (handler : Error -> M W A) : M W A :=
  fun w =>
    match body w with
    | (Ok a, w') => (Ok a, w')
    | (Throw e, w') => handler e w'
    end.

(** [try { body } finally { final }] *)
Definition try_finally {W A} (body : M W A) (final : M W unit) : M W A :=
  fun w =>
    match body w with
    | (r, w') =>
        match final w' with
        | (Ok _, w'') => (r, w'')
        | (Throw e, w'') => (Throw e, w'')
        end
    end.

(** A pure platform call that may throw. *)
Definition lift {W A} (o : outcome A) : M W A := fun w => (o, w).

Definition result {W A} (c : M W A) (w : W) : outcome A := fst (c w).
Definition after {W A} (c : M W A) (w : W) : W := snd (c w).

(** Did the evaluation complete normally? *)
Definition returns {A} (o : outcome A) : bool :=
  match o with Ok _ => true | Throw _ => false end.

End Js.

Import Js.

Declare Scope js_scope.
Delimit Scope js_scope with js.
Notation "x <- c ;; k" := (bind c (fun x => k))
  (at level 100, c at next level, right associativity) : js_scope.
Notation "c ;;; k" := (bind c (fun _ => k))
  (at level 100, right associativity) : js_scope.
Open Scope js_scope.

(** ** src/types/index.ts *)

Module CacheEntry.
Record t (T : Type) := mk { data : T; timestamp : Z; expiresIn : Z }.
Arguments mk {T} data timestamp expiresIn.
Arguments data {T} _.
Arguments timestamp {T} _.
Arguments expiresIn {T} _.
End CacheEntry.

(** ** src/services/storage.service.ts *)

(** The key-value backend [AsyncStorage]: strings under string keys.  Any
    call may reject. *)
Class AsyncStorageApi (S : Type) := {
  AsyncStorage_getItem : string -> S -> outcome (option string) * S;
  AsyncStorage_setItem : string -> string -> S -> outcome unit * S;
  AsyncStorage_removeItem : string -> S -> outcome unit * S;
  AsyncStorage_clear : S -> outcome unit * S;
}.

(** [JSON.stringify] and [JSON.parse] at the type the caller reads the
    text at; [JSON_parse] yields [None] for the text of [null]. *)
Class Json (T : Type) := {
  JSON_stringify : T -> outcome string;
  JSON_parse : string -> outcome (option T);
}.

Module StorageService.

(** What the service can observe and change: the backend, the clock
    read by [Date.now()] and the console. *)
Record World (S : Type) := mkWorld {
  backend : S;
  now : Z;
  console : list LogLine;
}.
Arguments mkWorld {S} backend now console.
Arguments backend {S} _.
Arguments now {S} _.
Arguments console {S} _.

Section Service.
Context {S : Type} `{AsyncStorageApi S}.

Definition on_backend {A} (f : S -> outcome A * S) : M (World S) A :=
  fun w =>
    let (r, s) := f (backend w) in
    (r, mkWorld s (now w) (console w)).

Definition Date_now : M (World S) Z := fun w => (Ok (now w), w).

Definition console_error (l : string) (e : Error) : M (World S) unit :=
  fun w => (Ok tt, mkWorld (backend w) (now w) (mkLogLine l e :: console w)).

Definition get {T} `{Json T} (key : string) : M (World S) (option T) :=
  try_catch
    (jsonValue <- on_backend (AsyncStorage_getItem key) ;;
     match jsonValue with
     | Some text => lift (JSON_parse text)
     | None => ret None
     end)
    (fun error =>
       console_error ("Error getting " +:+ key +:+ ":") error ;;;
       ret None).

Definition set {T} `{Json T} (key : string) (value : T) : M (World S) bool :=
  try_catch
    (text <- lift (JSON_stringify value) ;;
     on_backend (AsyncStorage_setItem key text) ;;;
     ret true)
    (fun error =>
       console_error ("Error setting " +:+ key +:+ ":") error ;;;
       ret false).

Definition remove (key : string) : M (World S) bool :=
  try_catch
    (on_backend (AsyncStorage_removeItem key) ;;;
     ret true)
    (fun error =>
       console_error ("Error removing " +:+ key +:+ ":") error ;;;
       ret false).

Definition getCached {T} `{Json (CacheEntry.t T)} (key : string)
  : M (World S) (option T) :=
  try_catch
    (cached <- get (T := CacheEntry.t T) key ;;
     match cached with
     | None => ret None
     | Some entry =>
         now <- Date_now ;;
         if now - CacheEntry.timestamp entry >? CacheEntry.expiresIn entry
         then remove key ;;; ret None
         else ret (Some (CacheEntry.data entry))
     end)
    (fun error =>
       console_error ("Error getting cached " +:+ key +:+ ":") error ;;;
       ret None).

Definition setCached {T} `{Json (CacheEntry.t T)}
    (key : string) (data : T) (expiresIn : Z) : M (World S) bool :=
  timestamp <- Date_now ;;
  set key (CacheEntry.mk data timestamp expiresIn).

Definition clear : M (World S) bool :=
  try_catch
    (on_backend AsyncStorage_clear ;;;
     ret true)
    (fun error =>
       console_error "Error clearing storage:" error ;;;
       ret false).

End Service.

End StorageService.


(** *** A working backend

    AsyncStorage as a finite map that never rejects: what the device
    gives when storage is healthy. *)

#[export] Instance memoryStorage : AsyncStorageApi (gmap string string) := {|
  AsyncStorage_getItem key store := (Ok (store !! key), store);
  AsyncStorage_setItem key text store := (Ok tt, <[key := text]> store);
  AsyncStorage_removeItem key store := (Ok tt, delete key store);
  AsyncStorage_clear store := (Ok tt, ∅);
|}.

(** *** JSON text of a cache entry with a numeric payload

    The text [JSON.stringify] writes for [{data, timestamp, expiresIn}]
    when [data] is an integer, and the reader of exactly that text. *)

Module EntryText.

Definition quote : string := String "034"%char EmptyString.

Definition field (name : string) : string := quote +:+ name +:+ quote +:+ ":".

Definition show (z : Z) : string := NilZero.string_of_int (Z.to_int z).

Fixpoint strip_prefix (p s : string) : option string :=
  match p, s with
  | EmptyString, _ => Some s
  | String a p', String b s' => if Ascii.eqb a b then strip_prefix p' s' else None
  | String _ _, EmptyString => None
  end.

Definition digit (c : ascii) : option Z :=
  let n := Z.of_nat (nat_of_ascii c) in
  if (48 <=? n) && (n <=? 57) then Some (n - 48) else None.

Fixpoint read_digits (s : string) (acc : Z) : Z * string :=
  match s with
  | String c s' =>
      match digit c with
      | Some d => read_digits s' (10 * acc + d)
      | None => (acc, s)
      end
  | EmptyString => (acc, s)
  end.

Definition read_nat (s : string) : option (Z * string) :=
  match s with
  | String c _ =>
      match digit c with
      | Some _ => Some (read_digits s 0)
      | None => None
      end
  | EmptyString => None
  end.

Definition read_int (s : string) : option (Z * string) :=
  match strip_prefix "-" s with
  | Some s' =>
      match read_nat s' with
      | Some (n, rest) => Some (- n, rest)
      | None => None
      end
  | None => read_nat s
  end.

Definition stringify (e : CacheEntry.t Z) : string :=
  "{" +:+ field "data" +:+ show (CacheEntry.data e)
      +:+ "," +:+ field "timestamp" +:+ show (CacheEntry.timestamp e)
      +:+ "," +:+ field "expiresIn" +:+ show (CacheEntry.expiresIn e) +:+ "}".

Definition read_entry (text : string) : option (CacheEntry.t Z) :=
  s ← strip_prefix ("{" +:+ field "data") text ;
  '(d, s) ← read_int s ;
  s ← strip_prefix ("," +:+ field "timestamp") s ;
  '(t, s) ← read_int s ;
  s ← strip_prefix ("," +:+ field "expiresIn") s ;
  '(x, s) ← read_int s ;
  match s with
  | "}"%string => Some (CacheEntry.mk d t x)
  | _ => None
  end.

Definition parse (text : string) : outcome (option (CacheEntry.t Z)) :=
  if String.eqb text "null" then Ok None
  else match read_entry text with
       | Some e => Ok (Some e)
       | None => Throw (mkError "SyntaxError: Unexpected token in JSON")
       end.

End EntryText.

#[export] Instance numericEntryJson : Json (CacheEntry.t Z) := {|
  JSON_stringify e := Ok (EntryText.stringify e);
  JSON_parse := EntryText.parse;
|}.

(** ** src/types/index.ts, continued *)

Module Attraction.

(** [id: string | number] *)
Inductive ident :=
| Str (s : string)
| Num (n : number).

Record t := mk {
  id : ident;
  name : string;
  latitude : number;
  longitude : number;
  type : string;
  distance : number;
  rating : number;
  description : option string;
  interestScore : option number;
  interestReason : option string;
  savedAt : option string;
}.

End Attraction.

Module AttractionScore.
Record t := mk { name : string; score : number; reason : string }.
End AttractionScore.

(** ** src/services/openai.service.ts *)

Module OpenAIService.

Record ChatMessage := mkChatMessage { role : string; content : string }.

(** The argument of the [axios({...})] call. *)
Record AxiosRequest := mkAxiosRequest {
  method : string;
  url : string;
  data_model : string;
  data_messages : list ChatMessage;
  data_max_tokens : Z;
  data_temperature : number;
  headers : list (string * string);
  timeout : Z;
}.

(** [response.data]: the list under [choices], each with its [message]. *)
Record AxiosResponse := mkAxiosResponse { data_choices : list ChatMessage }.

(** What the service does not own: configuration and constants (config,
    constants/index.ts), the remote end of axios, the regular expression
    engine and [String.prototype.trim]. *)
Class Platform := {
  config_get : string -> string;
  API_ENDPOINTS_OPENAI : string;
  APP_CONFIG_CLASSIFICATION_TIMEOUT : Z;
  network : AxiosRequest -> outcome AxiosResponse;
  (** capture group 1 of [content.match(/```(?:json)?\s*([\s\S]*?)```/)] *)
  match_fence : string -> option string;
  trim : string -> string;
  scoresJson :: Json (list AttractionScore.t);
}.

(** The requests that left the device, newest first, and the console. *)
Record World := mkWorld {
  sent : list AxiosRequest;
  console : list LogLine;
}.

Definition console_error (l : string) (e : Error) : M World unit :=
  fun w => (Ok tt, mkWorld (sent w) (mkLogLine l e :: console w)).

Definition nl : string := String "010"%char EmptyString.
Definition quote : string := String "034"%char EmptyString.
Definition fence : string := "```".

Definition includes (s sub : string) : bool :=
  match String.index 0 sub s with Some _ => true | None => false end.

Definition system_content : string :=
  "Du bist ein Reise-Experte. Bewerte Sehenswürdigkeiten basierend auf Benutzerinteressen. Antworte NUR mit einem JSON-Array ohne Markdown-Formatierung.".

Definition user_content (interestsText attractionNames : string) : string :=
  "Benutzerinteressen: " +:+ interestsText +:+ nl +:+ nl
  +:+ "Sehenswürdigkeiten: " +:+ attractionNames +:+ nl +:+ nl
  +:+ "Bewerte jede Sehenswürdigkeit mit einem Score von 0-10, wie gut sie zu den Interessen passt. Antworte im JSON-Format: [{"
  +:+ quote +:+ "name" +:+ quote +:+ ": " +:+ quote +:+ "Name" +:+ quote +:+ ", "
  +:+ quote +:+ "score" +:+ quote +:+ ": 8, "
  +:+ quote +:+ "reason" +:+ quote +:+ ": " +:+ quote +:+ "kurze Begründung" +:+ quote +:+ "}]".

Section Service.
Context `{Platform}.

Definition axios (request : AxiosRequest) : M World AxiosResponse :=
  fun w => (network request, mkWorld (request :: sent w) (console w)).

Definition getOpenApiKey : string := config_get "openai_api_key".

Definition isValidApiKey (key : string) : bool :=
  if negb (String.prefix "sk" key) then false else true.

Definition parseScoresFromResponse (content : string)
  : M World (option (list AttractionScore.t)) :=
  try_catch
    (let jsonText :=
       if includes content fence
       then match match_fence content with
            | Some group => trim group
            | None => content
            end
       else content in
     lift (JSON_parse jsonText))
    (fun error =>
       console_error "Failed to parse scores:" error ;;;
       ret (Some [])).

Definition mergeScoresWithAttractions
    (attractions : list Attraction.t) (scores : list AttractionScore.t)
  : list Attraction.t :=
  map (fun attraction =>
         let scoreData :=
           find (fun s => String.eqb (AttractionScore.name s) (Attraction.name attraction))
                scores in
         {| Attraction.id := Attraction.id attraction;
            Attraction.name := Attraction.name attraction;
            Attraction.latitude := Attraction.latitude attraction;
            Attraction.longitude := Attraction.longitude attraction;
            Attraction.type := Attraction.type attraction;
            Attraction.distance := Attraction.distance attraction;
            Attraction.rating := Attraction.rating attraction;
            Attraction.description := Attraction.description attraction;
            Attraction.interestScore :=
              Some (or_number (AttractionScore.score <$> scoreData) 5%Q);
            Attraction.interestReason :=
              Some (or_string (AttractionScore.reason <$> scoreData) EmptyString);
            Attraction.savedAt := Attraction.savedAt attraction |})
      attractions.

(** [this.mergeScoresWithAttractions(attractions, scores)] as evaluated:
    [scores] is whatever [JSON.parse] gave, and [null.find] raises as soon
    as the first attraction is mapped. *)
Definition merge_parsed (attractions : list Attraction.t)
    (scores : option (list AttractionScore.t)) : M World (list Attraction.t) :=
  match scores with
  | Some scores => ret (mergeScoresWithAttractions attractions scores)
  | None =>
      match attractions with
      | [] => ret []
      | _ :: _ => throw (mkError "TypeError: Cannot read properties of null (reading 'find')")
      end
  end.

Definition classifyAttractions
    (attractions : list Attraction.t) (userInterests : list string)
  : M World (list Attraction.t) :=
  let OPENAI_API_KEY := getOpenApiKey in
  if (List.length userInterests =? 0)%nat || negb (isValidApiKey OPENAI_API_KEY)
  then ret attractions
  else
    try_catch
      (let attractionNames := String.concat ", " (map Attraction.name attractions) in
       let interestsText := String.concat ", " userInterests in
       response <- axios {|
         method := "post";
         url := API_ENDPOINTS_OPENAI;
         data_model := "gpt-4o-mini";
         data_messages :=
           [ mkChatMessage "system" system_content;
             mkChatMessage "user" (user_content interestsText attractionNames) ];
         data_max_tokens := 1500;
         data_temperature := (3 # 10)%Q;
         headers :=
           [ ("Authorization"%string, "Bearer " +:+ OPENAI_API_KEY);
             ("Content-Type"%string, "application/json"%string) ];
         timeout := APP_CONFIG_CLASSIFICATION_TIMEOUT |} ;;
       content <-
         match data_choices response with
         | choice :: _ => ret (content choice)
         | [] => throw (mkError "TypeError: Cannot read properties of undefined (reading 'message')")
         end ;;
       scores <- parseScoresFromResponse content ;;
       merge_parsed attractions scores)
      (fun error =>
         console_error "Classification error:" error ;;;
         ret attractions).

End Service.

End OpenAIService.

(** ** src/types/index.ts, continued *)

Module Coordinates.
Record t := mk { latitude : number; longitude : number }.
End Coordinates.

Module CityInfo.
Record t := mk {
  city : string;
  country : string;
  state : option string;
  fullAddress : string;
  latitude : number;
  longitude : number;
}.
End CityInfo.

(** ** src/services/location.service.ts *)

Module LocationService.

(** [Location.LocationObject]: the fix and when it was taken. *)
Record LocationObject := mkLocationObject {
  coords : Coordinates.t;
  timestamp : Z;
}.

Inductive Accuracy := Lowest | Low | Balanced | High | Highest | BestForNavigation.

Record LocationOptions := mkLocationOptions {
  accuracy : Accuracy;
  distanceInterval : Z;
  timeInterval : Z;
}.

(** The request and the answer of the reverse lookup at Nominatim. *)
Record ReverseRequest := mkReverseRequest {
  url : string;
  params_lat : number;
  params_lon : number;
  params_format : string;
  params_accept_language : string;
  headers_user_agent : string;
}.

Record NominatimAddress := mkNominatimAddress {
  city : option string;
  town : option string;
  village : option string;
  municipality : option string;
  county : option string;
  country : string;
  state : option string;
}.

Record NominatimData := mkNominatimData {
  address : option NominatimAddress;
  display_name : string;
  lat : string;
  lon : string;
}.

Record NominatimResponse := mkNominatimResponse { data : option NominatimData }.

(** expo-location, axios and the constants, over a platform state [P]
    that the service cannot inspect.  [Location_watchPositionAsync] is
    the platform's decision to start the watch; the registry of running
    watches is kept in the world below. *)
Class LocationApi (P : Type) := {
  Location_requestForegroundPermissionsAsync : P -> outcome string * P;
  Location_getCurrentPositionAsync : P -> outcome LocationObject * P;
  Location_watchPositionAsync : LocationOptions -> P -> outcome unit * P;
  axios_get : ReverseRequest -> P -> outcome NominatimResponse * P;
  parseFloat : string -> number;
  API_ENDPOINTS_NOMINATIM : string;
  APP_CONFIG_USER_AGENT : string;
}.

(** The world of the location code: the platform, the running watches
    (subscription id to registered callback), the console, and the state
    [A] of the application the callbacks act on. *)
Record World (P C A : Type) := mkWorld {
  provider : P;
  watchers : gmap nat C;
  next_subscription : nat;
  console : list LogLine;
  app : A;
}.
Arguments mkWorld {P C A} provider watchers next_subscription console app.
Arguments provider {P C A} _.
Arguments watchers {P C A} _.
Arguments next_subscription {P C A} _.
Arguments console {P C A} _.
Arguments app {P C A} _.

(** [s.split(',')[0]] *)
Fixpoint before_comma (s : string) : string :=
  match s with
  | EmptyString => EmptyString
  | String c s' => if Ascii.eqb c ","%char then EmptyString else String c (before_comma s')
  end.

Section Service.
Context {P C A : Type} `{LocationApi P}.

Definition on_provider {X} (f : P -> outcome X * P) : M (World P C A) X :=
  fun w =>
    let (r, p) := f (provider w) in
    (r, mkWorld p (watchers w) (next_subscription w) (console w) (app w)).

Definition console_error (l : string) (e : Error) : M (World P C A) unit :=
  fun w =>
    (Ok tt, mkWorld (provider w) (watchers w) (next_subscription w)
                    (mkLogLine l e :: console w) (app w)).

(** [Location.watchPositionAsync(options, callback)]: when the platform
    starts the watch, the callback is registered under a fresh id, which
    is the subscription handed back. *)
Definition watchPositionAsync (options : LocationOptions) (callback : C)
  : M (World P C A) nat :=
  on_provider (Location_watchPositionAsync options) ;;;
  fun w =>
    let id := next_subscription w in
    (Ok id, mkWorld (provider w) (<[id := callback]> (watchers w)) (S id)
                    (console w) (app w)).

(** [subscription.remove()]: unregisters the callback if it is still
    registered and does nothing otherwise. *)
Definition subscription_remove (subscription : nat) : M (World P C A) unit :=
  fun w =>
    (Ok tt, mkWorld (provider w) (delete subscription (watchers w))
                    (next_subscription w) (console w) (app w)).

Definition requestPermissions : M (World P C A) bool :=
  status <- on_provider Location_requestForegroundPermissionsAsync ;;
  ret (String.eqb status "granted").

Definition getCurrentLocation : M (World P C A) (option LocationObject) :=
  try_catch
    (hasPermission <- requestPermissions ;;
     if negb hasPermission
     then throw (mkError "Location permission denied")
     else
       location <- on_provider Location_getCurrentPositionAsync ;;
       ret (Some location))
    (fun error =>
       console_error "Error getting location:" error ;;;
       ret None).

Definition watchPosition (callback : C) (options : option LocationOptions)
  : M (World P C A) (option nat) :=
  try_catch
    (hasPermission <- requestPermissions ;;
     if negb hasPermission
     then throw (mkError "Location permission denied")
     else
       subscription <-
         watchPositionAsync
           (match options with
            | Some options => options
            | None => {| accuracy := Balanced;
                         distanceInterval := 500;
                         timeInterval := 120000 |}
            end)
           callback ;;
       ret (Some subscription))
    (fun error =>
       console_error "Error watching position:" error ;;;
       ret None).

Definition reverseGeocode (coordinates : Coordinates.t)
  : M (World P C A) (option CityInfo.t) :=
  try_catch
    (response <- on_provider (axios_get {|
       url := API_ENDPOINTS_NOMINATIM +:+ "/reverse";
       params_lat := Coordinates.latitude coordinates;
       params_lon := Coordinates.longitude coordinates;
       params_format := "json";
       params_accept_language := "de";
       headers_user_agent := APP_CONFIG_USER_AGENT |}) ;;
     match data response with
     | Some data =>
         match address data with
         | Some address =>
             let cityName :=
               or_string (city address)
                 (or_string (town address)
                    (or_string (village address)
                       (or_string (municipality address)
                          (or_string (county address)
                             (before_comma (display_name data)))))) in
             ret (Some {|
               CityInfo.city := cityName;
               CityInfo.country := country address;
               CityInfo.state := state address;
               CityInfo.fullAddress := display_name data;
               CityInfo.latitude := parseFloat (lat data);
               CityInfo.longitude := parseFloat (lon data) |})
         | None =>
             throw (mkError "TypeError: Cannot read properties of undefined (reading 'city')")
         end
     | None => ret None
     end)
    (fun error =>
       console_error "Error reverse geocoding:" error ;;;
       ret None).

End Service.

End LocationService.

(** ** src/utils/distance.ts *)

(** The hook imports [hasSignificantMovement] from utils/distance, which
    is not among the sources; the hook is verified against any
    implementation of it. *)
Class DistanceUtils := {
  hasSignificantMovement : option Coordinates.t -> Coordinates.t -> bool;
}.

Module SpecDistance.

(** Modelled from the spec: constants/index.ts is missing.  The spec
    wants a fixed threshold of some hundreds of metres; 500 m is the
    distance interval the watch itself is configured with. *)
Definition MOVEMENT_THRESHOLD : Q := 500%Q.

(** Modelled from the spec: the length of one degree in the planar
    approximation. *)
Definition METERS_PER_DEGREE : Q := 111320%Q.

(** Modelled from the spec: utils/distance.ts is missing.  The spec asks
    for a planar approximation of the distance in metres, symmetric and
    zero exactly between equal coordinates; this is its square, one degree
    taken as 111320 m on both axes, so that no square root is needed. *)
Definition distanceMetersSquared (a b : Coordinates.t) : Q :=
  let dy := (METERS_PER_DEGREE * (Coordinates.latitude a - Coordinates.latitude b))%Q in
  let dx := (METERS_PER_DEGREE * (Coordinates.longitude a - Coordinates.longitude b))%Q in
  (dy * dy + dx * dx)%Q.

(** Modelled from the spec: utils/distance.ts is missing.  The spec's
    [isSignificantMovement]: true when there is no previous fix, otherwise
    true iff the distance is at least [MOVEMENT_THRESHOLD] (compared on
    squares). *)
Definition isSignificantMovement (previous : option Coordinates.t) (next : Coordinates.t) : bool :=
  match previous with
  | None => true
  | Some previous =>
      Qle_bool (MOVEMENT_THRESHOLD * MOVEMENT_THRESHOLD)
               (distanceMetersSquared previous next)
  end.

End SpecDistance.

(** ** src/hooks/useLocation.ts *)

Module UseLocation.

Import LocationService.

(** The four [useState] cells of the hook. *)
Record HookState := mkHookState {
  location : option Coordinates.t;
  cityInfo : option CityInfo.t;
  loading : bool;
  error : option string;
}.

(** The arrow function handed to [watchPosition], as a closure: its code
    is [onPosition] below and its environment is the [location] of the
    render whose effect created it. *)
Inductive Callback := OnPosition (location : option Coordinates.t).

(** What the effect returns: nothing when tracking is disabled, else the
    cleanup function, a closure over the effect's variable
    [subscription]. *)
Record Cleanup := mkCleanup { subscription : option nat }.

Section Hook.
Context {P : Type} `{LocationApi P} `{DistanceUtils}.

Abbreviation World := (LocationService.World P Callback HookState).

Definition set_state (f : HookState -> HookState) : M World unit :=
  fun w =>
    (Ok tt, mkWorld (provider w) (watchers w) (next_subscription w)
                    (console w) (f (app w))).

Definition setLocation (v : option Coordinates.t) : M World unit :=
  set_state (fun s => mkHookState v (cityInfo s) (loading s) (error s)).

Definition setCityInfo (v : option CityInfo.t) : M World unit :=
  set_state (fun s => mkHookState (location s) v (loading s) (error s)).

Definition setLoading (v : bool) : M World unit :=
  set_state (fun s => mkHookState (location s) (cityInfo s) v (error s)).

Definition setError (v : option string) : M World unit :=
  set_state (fun s => mkHookState (location s) (cityInfo s) (loading s) v).

(** A call of an async function whose promise is dropped: it runs, and
    neither its value nor its rejection reaches the caller. *)
Definition detached {X} (c : M World X) : M World unit :=
  fun w => (Ok tt, snd (c w)).

Definition loadLocation : M World unit :=
  setLoading true ;;;
  setError None ;;;
  try_finally
    (try_catch
       (currentLocation <- getCurrentLocation ;;
        match currentLocation with
        | Some currentLocation =>
            let coords := {|
              Coordinates.latitude := Coordinates.latitude (coords currentLocation);
              Coordinates.longitude := Coordinates.longitude (coords currentLocation) |} in
            setLocation (Some coords) ;;;
            city <- reverseGeocode coords ;;
            setCityInfo city
        | None => ret tt
        end)
       (fun err =>
          setError (Some (or_string (Some (message err)) "Failed to get location"))))
    (setLoading false).

(** The body of the watch callback; [location] is the closure's. *)
Definition onPosition (location : option Coordinates.t) (newLocation : LocationObject)
  : M World unit :=
  let newCoords := {|
    Coordinates.latitude := Coordinates.latitude (coords newLocation);
    Coordinates.longitude := Coordinates.longitude (coords newLocation) |} in
  if hasSignificantMovement location newCoords
  then
    setLocation (Some newCoords) ;;;
    detached (city <- reverseGeocode newCoords ;; setCityInfo city)
  else ret tt.

Definition call (callback : Callback) (newLocation : LocationObject) : M World unit :=
  match callback with
  | OnPosition location => onPosition location newLocation
  end.

(** [startTracking] inside the effect: it assigns the effect's variable
    [subscription] once [watchPosition] has answered.  Its promise is
    dropped, so a rejection would leave [subscription] null. *)
Definition startTracking (location : option Coordinates.t) : M World (option nat) :=
  fun w =>
    match watchPosition (OnPosition location) None w with
    | (Ok subscription, w') => (Ok subscription, w')
    | (Throw _, w') => (Ok None, w')
    end.

(** The function passed to [useEffect], run in a render that saw
    [location] in its state.  Each asynchronous call is run to its end
    before the next event is looked at. *)
Definition effect (enableTracking : bool) (location : option Coordinates.t)
  : M World (option Cleanup) :=
  detached loadLocation ;;;
  if negb enableTracking then ret None
  else
    subscription <- startTracking location ;;
    ret (Some (mkCleanup subscription)).

(** [() => { subscription?.remove(); }] *)
Definition cleanup (c : Cleanup) : M World unit :=
  match subscription c with
  | Some subscription => subscription_remove subscription
  | None => ret tt
  end.

(** *** The component that uses the hook

    React keeps, besides the state cells, the dependencies
    [[enableTracking, loadLocation]] of the last run of the effect and
    what it returned.  [loadLocation] is memoised with no dependencies and
    never changes, so only [enableTracking] is recorded. *)
Record Component := mkComponent {
  world : World;
  deps_enableTracking : bool;
  returned : option Cleanup;
}.

Definition run_cleanup (returned : option Cleanup) (w : World) : World :=
  match returned with
  | Some c => snd (cleanup c w)
  | None => w
  end.

Definition run_effect (enableTracking : bool) (w : World) : Component :=
  match effect enableTracking (location (app w)) w with
  | (Ok returned, w') => mkComponent w' enableTracking returned
  | (Throw _, w') => mkComponent w' enableTracking None
  end.

(** First render: fresh state cells, then the effect. *)
Definition mount (enableTracking : bool) (w : World) : Component :=
  run_effect enableTracking
    (mkWorld (provider w) (watchers w) (next_subscription w) (console w)
             (mkHookState None None true None)).

(** A later render: the effect is run again, after the cleanup of its
    last run, only if a dependency changed. *)
Definition render (enableTracking : bool) (c : Component) : Component :=
  if Bool.eqb enableTracking (deps_enableTracking c) then c
  else run_effect enableTracking (run_cleanup (returned c) (world c)).

Definition unmount (c : Component) : World :=
  run_cleanup (returned c) (world c).

(** The platform reports a position to the watch [id]; the state change,
    if any, renders the component again with the same props. *)
Definition deliver (id : nat) (newLocation : LocationObject) (c : Component) : Component :=
  match watchers (world c) !! id with
  | Some callback =>
      render (deps_enableTracking c)
        (mkComponent (snd (call callback newLocation (world c)))
                     (deps_enableTracking c) (returned c))
  | None => c
  end.

Definition deliver_all (id : nat) (updates : list LocationObject) (c : Component) : Component :=
  fold_left (fun c u => deliver id u c) updates c.

End Hook.

End UseLocation.

(** ** JSON text of strings

    [JSON.stringify] on a string, as ECMAScript's QuoteJSONString writes
    it (strings are sequences of bytes here, all of them below are
    passed through except the quote, the backslash and the control
    characters), and the reader of such texts. *)

Module StringText.

Definition dquote : ascii := "034"%char.
Definition backslash : ascii := "092"%char.

Definition hex_digit (n : N) : ascii :=
  if (n <? 10)%N then ascii_of_N (48 + n) else ascii_of_N (87 + n).

Definition unhex (c : ascii) : option N :=
  let n := N_of_ascii c in
  if ((48 <=? n) && (n <=? 57))%N then Some (n - 48)%N
  else if ((97 <=? n) && (n <=? 102))%N then Some (n - 87)%N
  else if ((65 <=? n) && (n <=? 70))%N then Some (n - 55)%N
  else None.

Definition escape_char (c : ascii) : string :=
  if Ascii.eqb c dquote then String backslash (String dquote EmptyString)
  else if Ascii.eqb c backslash then String backslash (String backslash EmptyString)
  else if Ascii.eqb c "008" then String backslash "b"
  else if Ascii.eqb c "012" then String backslash "f"
  else if Ascii.eqb c "010" then String backslash "n"
  else if Ascii.eqb c "013" then String backslash "r"
  else if Ascii.eqb c "009" then String backslash "t"
  else if (N_of_ascii c <? 32)%N
       then String backslash
              (String "u" (String "0" (String "0"
                 (String (hex_digit (N_of_ascii c / 16))
                    (String (hex_digit (N_of_ascii c mod 16)) EmptyString)))))
       else String c EmptyString.

Fixpoint escape (s : string) : string :=
  match s with
  | EmptyString => EmptyString
  | String c s' => escape_char c +:+ escape s'
  end.

Definition stringify (s : string) : string :=
  String dquote (escape s +:+ String dquote EmptyString).

(** The character a one-letter escape stands for. *)
Definition unescape (e : ascii) : option ascii :=
  if Ascii.eqb e dquote then Some dquote
  else if Ascii.eqb e backslash then Some backslash
  else if Ascii.eqb e "/" then Some "/"%char
  else if Ascii.eqb e "b" then Some "008"%char
  else if Ascii.eqb e "f" then Some "012"%char
  else if Ascii.eqb e "n" then Some "010"%char
  else if Ascii.eqb e "r" then Some "013"%char
  else if Ascii.eqb e "t" then Some "009"%char
  else None.

(** The byte a [\uXXXX] escape stands for, when it is a single one. *)
Definition unhex4 (a b c d : ascii) : option ascii :=
  match unhex a, unhex b, unhex c, unhex d with
  | Some x, Some y, Some z, Some t =>
      let n := (((x * 16 + y) * 16 + z) * 16 + t)%N in
      if (n <? 128)%N then Some (ascii_of_N n) else None
  | _, _, _, _ => None
  end.

Definition prepend (c : ascii) (r : option (string * string)) : option (string * string) :=
  match r with
  | Some (s, rest) => Some (String c s, rest)
  | None => None
  end.

(** The characters up to the closing quote, and what follows it. *)
Fixpoint read_chars (s : string) : option (string * string) :=
  match s with
  | EmptyString => None
  | String c rest =>
      if Ascii.eqb c dquote then Some (EmptyString, rest)
      else if Ascii.eqb c backslash then
        match rest with
        | String e rest' =>
            if Ascii.eqb e "u" then
              match rest' with
              | String h1 (String h2 (String h3 (String h4 rest''))) =>
                  match unhex4 h1 h2 h3 h4 with
                  | Some ch => prepend ch (read_chars rest'')
                  | None => None
                  end
              | _ => None
              end
            else
              match unescape e with
              | Some ch => prepend ch (read_chars rest')
              | None => None
              end
        | EmptyString => None
        end
      else if (N_of_ascii c <? 32)%N then None
      else prepend c (read_chars rest)
  end.

Definition read_string (text : string) : option (string * string) :=
  match text with
  | String c rest => if Ascii.eqb c dquote then read_chars rest else None
  | EmptyString => None
  end.

Definition parse (text : string) : outcome (option string) :=
  if String.eqb text "null" then Ok None
  else match read_string text with
       | Some (s, EmptyString) => Ok (Some s)
       | _ => Throw (mkError "SyntaxError: Unexpected token in JSON")
       end.

(** The text of an entry whose payload is a string. *)
Definition stringify_entry (e : CacheEntry.t string) : string :=
  "{" +:+ EntryText.field "data" +:+ stringify (CacheEntry.data e)
      +:+ "," +:+ EntryText.field "timestamp" +:+ EntryText.show (CacheEntry.timestamp e)
      +:+ "," +:+ EntryText.field "expiresIn" +:+ EntryText.show (CacheEntry.expiresIn e)
      +:+ "}".

Definition read_entry (text : string) : option (CacheEntry.t string) :=
  s ← EntryText.strip_prefix ("{" +:+ EntryText.field "data") text ;
  '(d, s) ← read_string s ;
  s ← EntryText.strip_prefix ("," +:+ EntryText.field "timestamp") s ;
  '(t, s) ← EntryText.read_int s ;
  s ← EntryText.strip_prefix ("," +:+ EntryText.field "expiresIn") s ;
  '(x, s) ← EntryText.read_int s ;
  match s with
  | "}"%string => Some (CacheEntry.mk d t x)
  | _ => None
  end.

Definition parse_entry (text : string) : outcome (option (CacheEntry.t string)) :=
  if String.eqb text "null" then Ok None
  else match read_entry text with
       | Some e => Ok (Some e)
       | None => Throw (mkError "SyntaxError: Unexpected token in JSON")
       end.

End StringText.

#[export] Instance stringJson : Json string := {|
  JSON_stringify s := Ok (StringText.stringify s);
  JSON_parse := StringText.parse;
|}.

#[export] Instance stringEntryJson : Json (CacheEntry.t string) := {|
  JSON_stringify e := Ok (StringText.stringify_entry e);
  JSON_parse := StringText.parse_entry;
|}.

(** ** src/services/storage.service.ts, the exported helpers *)

(** The keys and durations of constants/index.ts, which is not among the
    sources. *)
Class Constants := {
  STORAGE_KEYS_AI_DESCRIPTIONS : string;
  CACHE_DURATION_AI_DESCRIPTION : Z;
}.

Module StorageHelpers.

Import StorageService.

(** The order [Array.prototype.sort()] uses when it is given no
    comparator and the elements are strings: code unit by code unit. *)
Definition code_unit_le (a b : string) : Prop :=
  OrdersEx.String_as_OT.compare a b <> Gt.

#[export] Instance code_unit_le_dec (a b : string) : Decision (code_unit_le a b).
Proof. unfold code_unit_le. destruct (OrdersEx.String_as_OT.compare a b); solve_decision. Defined.

(** [interests.sort()]: the array in ascending order.  (The call also
    leaves the caller's array in that order; the model keeps the value.) *)
Definition Array_sort (a : list string) : list string := merge_sort code_unit_le a.

Section Helpers.
Context {S : Type} `{AsyncStorageApi S} `{Constants}.

Definition getCachedAIDescription (location : string) (interests : list string)
  : M (World S) (option string) :=
  get (STORAGE_KEYS_AI_DESCRIPTIONS +:+ "_" +:+ location +:+ "_"
       +:+ String.concat "," (Array_sort interests)).

Definition cacheAIDescription (location : string) (interests : list string)
    (description : string) : M (World S) bool :=
  set (STORAGE_KEYS_AI_DESCRIPTIONS +:+ "_" +:+ location +:+ "_"
       +:+ String.concat "," (Array_sort interests))
      description.

End Helpers.

End StorageHelpers.

(** ** src/services/openai.service.ts, the description cache *)

Module OpenAICache.

Import StorageService.

Section Cache.
Context {S : Type} `{AsyncStorageApi S} `{Constants}.

Definition getCachedDescription (location : string) (interests : list string)
  : M (World S) (option string) :=
  let cacheKey :=
    STORAGE_KEYS_AI_DESCRIPTIONS +:+ "_" +:+ location +:+ "_"
    +:+ String.concat "," interests in
  getCached cacheKey.

Definition cacheDescription (location : string) (interests : list string)
    (description : string) : M (World S) bool :=
  let cacheKey :=
    STORAGE_KEYS_AI_DESCRIPTIONS +:+ "_" +:+ location +:+ "_"
    +:+ String.concat "," interests in
  setCached cacheKey description CACHE_DURATION_AI_DESCRIPTION.

End Cache.

End OpenAICache.

(** ** src/services/location.service.ts, the search *)

Module LocationSearch.

Import LocationService.

Record SearchRequest := mkSearchRequest {
  url : string;
  params_q : string;
  params_format : string;
  params_limit : Z;
  params_accept_language : string;
  headers_user_agent : string;
}.

Record SearchHit := mkSearchHit { lat : string; lon : string }.

(** [response.data]: null, or the list of hits. *)
Record SearchResponse := mkSearchResponse { data : option (list SearchHit) }.

(** The search end of axios. *)
Class SearchApi (P : Type) := {
  axios_get_search : SearchRequest -> P -> outcome SearchResponse * P;
}.

Section Service.
Context {P C A : Type} `{LocationApi P} `{SearchApi P}.

Definition searchLocation (locationName : string)
  : M (World P C A) (option Coordinates.t) :=
  try_catch
    (response <- on_provider (axios_get_search {|
       url := API_ENDPOINTS_NOMINATIM +:+ "/search";
       params_q := locationName;
       params_format := "json";
       params_limit := 1;
       params_accept_language := "de";
       headers_user_agent := APP_CONFIG_USER_AGENT |}) ;;
     match data response with
     | Some (result :: _) =>
         ret (Some {|
           Coordinates.latitude := parseFloat (lat result);
           Coordinates.longitude := parseFloat (lon result) |})
     | Some [] => ret None
     | None => ret None
     end)
    (fun error =>
       LocationService.console_error "Error searching location:" error ;;;
       ret None).

End Service.

End LocationSearch.

(** ** src/screens/HomeScreen.tsx, what a card shows *)

(** The thresholds of APP_CONFIG (constants/index.ts, not among the
    sources). *)
Class AppConfig := {
  HIGH_INTEREST_SCORE : number;
  MIN_INTEREST_SCORE : number;
}.

Module HomeScreen.

(** [x >= y] on numbers. *)
Definition ge (x y : number) : bool := Qle_bool y x.

Definition truthy_opt_number (x : option number) : bool :=
  match x with Some v => truthy_number v | None => false end.

Definition truthy_opt_string (x : option string) : bool :=
  match x with Some v => truthy_string v | None => false end.

Section Card.
Context `{AppConfig}.

(** [(item.interestScore ?? 0) >= APP_CONFIG.HIGH_INTEREST_SCORE]: the
    highlighted card and the Top Match badge. *)
Definition top_match (item : Attraction.t) : bool :=
  ge (match Attraction.interestScore item with Some v => v | None => 0%Q end)
     HIGH_INTEREST_SCORE.

(** [item.interestReason && item.interestScore &&
    item.interestScore >= APP_CONFIG.MIN_INTEREST_SCORE]: the reason line. *)
Definition shows_reason (item : Attraction.t) : bool :=
  truthy_opt_string (Attraction.interestReason item)
  && truthy_opt_number (Attraction.interestScore item)
  && match Attraction.interestScore item with
     | Some v => ge v MIN_INTEREST_SCORE
     | None => false
     end.

(** [item.interestScore && (...)]: the Match score box. *)
Definition shows_score (item : Attraction.t) : bool :=
  truthy_opt_number (Attraction.interestScore item).

End Card.

End HomeScreen.

(** * The vocabulary of the statements *)

Module StorageTerms.

Import StorageService.

Section AnyBackend.
Context {S : Type} `{AsyncStorageApi S}.

(** What [get] gives, read off the backend's answer: the parsed value, and
    [None] both for a missing key and for a failure of the backend or of
    the parser. *)
Definition get_answer {T} `{Json T} (key : string) (w : World S) : option T :=
  match fst (AsyncStorage_getItem key (backend w)) with
  | Ok (Some text) =>
      match JSON_parse text with
      | Ok v => v
      | Throw _ => None
      end
  | Ok None => None
  | Throw _ => None
  end.

Definition set_answer {T} `{Json T} (key : string) (value : T) (w : World S) : bool :=
  match JSON_stringify value with
  | Ok text => returns (fst (AsyncStorage_setItem key text (backend w)))
  | Throw _ => false
  end.

End AnyBackend.

(** The spec's example on JSON text: an entry with payload 42 written at
    [T0] with [expiresIn = 1000], stored as the text JSON gives it. *)
Definition T0 : Z := 1700000000000.

Definition entry : CacheEntry.t Z := CacheEntry.mk 42 T0 1000.

Definition text : string := EntryText.stringify entry.

Definition world_at (t : Z) : World (gmap string string) :=
  mkWorld {[ "attractions"%string := text ]} t [].

(** The value of a decimal numeral read left to right onto [acc], and
    the texts at which reading digits stops. *)
Fixpoint uint_value (d : Decimal.uint) (acc : Z) : Z :=
  match d with
  | Decimal.Nil => acc
  | Decimal.D0 l => uint_value l (10 * acc + 0)
  | Decimal.D1 l => uint_value l (10 * acc + 1)
  | Decimal.D2 l => uint_value l (10 * acc + 2)
  | Decimal.D3 l => uint_value l (10 * acc + 3)
  | Decimal.D4 l => uint_value l (10 * acc + 4)
  | Decimal.D5 l => uint_value l (10 * acc + 5)
  | Decimal.D6 l => uint_value l (10 * acc + 6)
  | Decimal.D7 l => uint_value l (10 * acc + 7)
  | Decimal.D8 l => uint_value l (10 * acc + 8)
  | Decimal.D9 l => uint_value l (10 * acc + 9)
  end.

Definition stops (rest : string) : Prop :=
  match rest with
  | String c _ => EntryText.digit c = None
  | EmptyString => True
  end.

End StorageTerms.

Module OpenAITerms.

Import OpenAIService.

(** Every field of an attraction that the merge is not meant to touch. *)
Definition base_fields (a : Attraction.t) :=
  (Attraction.id a, Attraction.name a, Attraction.latitude a, Attraction.longitude a,
   Attraction.type a, Attraction.distance a, Attraction.rating a,
   Attraction.description a, Attraction.savedAt a).

(** The first score whose name is exactly the attraction's. *)
Definition score_for (scores : list AttractionScore.t) (a : Attraction.t)
  : option AttractionScore.t :=
  find (fun s => String.eqb (AttractionScore.name s) (Attraction.name a)) scores.

Definition museum : Attraction.t := {|
  Attraction.id := Attraction.Num 1%Q;
  Attraction.name := "A";
  Attraction.latitude := (5252 # 100)%Q;
  Attraction.longitude := (1340 # 100)%Q;
  Attraction.type := "museum";
  Attraction.distance := 850%Q;
  Attraction.rating := (45 # 10)%Q;
  Attraction.description := None;
  Attraction.interestScore := None;
  Attraction.interestReason := None;
  Attraction.savedAt := None |}.

Definition with_interest (a : Attraction.t) (score : number) (reason : string)
  : Attraction.t := {|
  Attraction.id := Attraction.id a;
  Attraction.name := Attraction.name a;
  Attraction.latitude := Attraction.latitude a;
  Attraction.longitude := Attraction.longitude a;
  Attraction.type := Attraction.type a;
  Attraction.distance := Attraction.distance a;
  Attraction.rating := Attraction.rating a;
  Attraction.description := Attraction.description a;
  Attraction.interestScore := Some score;
  Attraction.interestReason := Some reason;
  Attraction.savedAt := Attraction.savedAt a |}.

Section Classification.
Context `{Platform}.

(** The guard in front of the request. *)
Definition skipped (userInterests : list string) : bool :=
  (List.length userInterests =? 0)%nat || negb (String.prefix "sk" (config_get "openai_api_key")).

(** The request the service sends for these inputs. *)
Definition classification_request
    (attractions : list Attraction.t) (userInterests : list string) : AxiosRequest := {|
  method := "post";
  url := API_ENDPOINTS_OPENAI;
  data_model := "gpt-4o-mini";
  data_messages :=
    [ mkChatMessage "system" system_content;
      mkChatMessage "user"
        (user_content (String.concat ", " userInterests)
                      (String.concat ", " (map Attraction.name attractions))) ];
  data_max_tokens := 1500;
  data_temperature := (3 # 10)%Q;
  headers :=
    [ ("Authorization"%string, "Bearer " +:+ config_get "openai_api_key");
      ("Content-Type"%string, "application/json"%string) ];
  timeout := APP_CONFIG_CLASSIFICATION_TIMEOUT |}.

(** The text handed to [JSON.parse]. *)
Definition scores_text (content : string) : string :=
  if includes content fence
  then match match_fence content with
       | Some group => trim group
       | None => content
       end
  else content.

(** What the step answers once the request is sent, by what came back. *)
Definition classified (attractions : list Attraction.t)
    (answer : outcome AxiosResponse) : list Attraction.t :=
  match answer with
  | Throw _ => attractions
  | Ok response =>
      match data_choices response with
      | [] => attractions
      | choice :: _ =>
          match JSON_parse (scores_text (content choice)) with
          | Throw _ => mergeScoresWithAttractions attractions []
          | Ok (Some scores) => mergeScoresWithAttractions attractions scores
          | Ok None => attractions
          end
      end
  end.

End Classification.

(** A remote end that answers with prose instead of JSON. *)
Definition chattyPlatform : Platform := {|
  config_get := fun _ => "sk-test"%string;
  API_ENDPOINTS_OPENAI := "https://api.openai.com/v1/chat/completions";
  APP_CONFIG_CLASSIFICATION_TIMEOUT := 30000;
  network := fun _ =>
    Ok (mkAxiosResponse [mkChatMessage "assistant" "Gerne! Hier ist meine Bewertung."]);
  match_fence := fun _ => None;
  trim := fun s => s;
  scoresJson := {|
    JSON_stringify := fun _ => Ok "[]"%string;
    JSON_parse := fun text =>
      if String.eqb text "[]" then Ok (Some [])
      else Throw (mkError "SyntaxError: Unexpected token G in JSON at position 0") |} |}.

End OpenAITerms.

Module LocationTerms.

Import LocationService UseLocation.

Section AnyPlatform.
Context {P : Type} `{LocationApi P}.

(** No fix: permission not granted, or the platform failed. *)
Definition no_fix (p : P) : bool :=
  match Location_requestForegroundPermissionsAsync p with
  | (Throw _, _) => true
  | (Ok status, p') =>
      if String.eqb status "granted"
      then negb (returns (fst (Location_getCurrentPositionAsync p')))
      else true
  end.

End AnyPlatform.

(** The utils/distance functions as the spec describes them. *)
Definition specDistance : DistanceUtils := {|
  hasSignificantMovement := SpecDistance.isSignificantMovement;
|}.

Definition berlin : Coordinates.t := Coordinates.mk (5252 # 100)%Q (1340 # 100)%Q.

(** About 1.1 km north of [berlin], and 11 m further north. *)
Definition first_report : Coordinates.t := Coordinates.mk (5253 # 100)%Q (1340 # 100)%Q.
Definition second_report : Coordinates.t := Coordinates.mk (525301 # 10000)%Q (1340 # 100)%Q.

(** A device on which everything works; the reverse lookup finds nothing. *)
Definition grantedPlatform : LocationApi unit := {|
  Location_requestForegroundPermissionsAsync p := (Ok "granted"%string, p);
  Location_getCurrentPositionAsync p := (Ok (mkLocationObject berlin 0), p);
  Location_watchPositionAsync _ p := (Ok tt, p);
  axios_get _ p := (Ok (mkNominatimResponse None), p);
  parseFloat _ := 0%Q;
  API_ENDPOINTS_NOMINATIM := "https://nominatim.openstreetmap.org";
  APP_CONFIG_USER_AGENT := "TravelGuideApp/1.0";
|}.

(** The user refused the location permission. *)
Definition deniedPlatform : LocationApi unit := {|
  Location_requestForegroundPermissionsAsync p := (Ok "denied"%string, p);
  Location_getCurrentPositionAsync p := (Ok (mkLocationObject berlin 0), p);
  Location_watchPositionAsync _ p := (Ok tt, p);
  axios_get _ p := (Ok (mkNominatimResponse None), p);
  parseFloat _ := 0%Q;
  API_ENDPOINTS_NOMINATIM := "https://nominatim.openstreetmap.org";
  APP_CONFIG_USER_AGENT := "TravelGuideApp/1.0";
|}.

(** Permission granted, but the provider cannot produce a fix. *)
Definition unavailablePlatform : LocationApi unit := {|
  Location_requestForegroundPermissionsAsync p := (Ok "granted"%string, p);
  Location_getCurrentPositionAsync p :=
    (Throw (mkError "Location provider is unavailable"), p);
  Location_watchPositionAsync _ p := (Ok tt, p);
  axios_get _ p := (Ok (mkNominatimResponse None), p);
  parseFloat _ := 0%Q;
  API_ENDPOINTS_NOMINATIM := "https://nominatim.openstreetmap.org";
  APP_CONFIG_USER_AGENT := "TravelGuideApp/1.0";
|}.

Abbreviation World := (LocationService.World unit Callback HookState).

(** Nothing running yet. *)
Definition fresh : World := mkWorld tt ∅ 0%nat [] (mkHookState None None true None).

(** The hook holds the coordinates of an earlier fix. *)
Definition holding : World :=
  mkWorld tt ∅ 0%nat [] (mkHookState (Some berlin) None false None).

Definition report (c : Coordinates.t) : LocationObject := mkLocationObject c 0.

End LocationTerms.

Module ExtraTerms.

Import StorageService.

(** A backend that can be read but rejects every change. *)
Definition readOnlyStorage : AsyncStorageApi (gmap string string) := {|
  AsyncStorage_getItem key store := (Ok (store !! key), store);
  AsyncStorage_setItem key text store := (Throw (mkError "storage is read-only"), store);
  AsyncStorage_removeItem key store := (Throw (mkError "storage is read-only"), store);
  AsyncStorage_clear store := (Throw (mkError "storage is read-only"), store);
|}.

(** The constants as the architecture notes give them: descriptions are
    kept for seven days. *)
Definition appConstants : Constants := {|
  STORAGE_KEYS_AI_DESCRIPTIONS := "@travel_guide_ai_descriptions";
  CACHE_DURATION_AI_DESCRIPTION := 7 * 24 * 60 * 60 * 1000;
|}.

(** The key of the description cache of the OpenAI service. *)
Definition description_key `{Constants} (location : string) (interests : list string)
  : string :=
  STORAGE_KEYS_AI_DESCRIPTIONS +:+ "_" +:+ location +:+ "_"
  +:+ String.concat "," interests.

(** A store that holds one expired numeric entry. *)
Definition stale_world : World (gmap string string) :=
  mkWorld {[ "attractions"%string :=
               EntryText.stringify (CacheEntry.mk 42 1700000000000 1000) ]}
          1700000002000 [].

(** Thresholds for the cards. *)
Definition sampleConfig : AppConfig := {|
  HIGH_INTEREST_SCORE := 7%Q;
  MIN_INTEREST_SCORE := 5%Q;
|}.

(** The request of the reverse lookup for these coordinates. *)
Definition reverse_request {P : Type} `{LocationService.LocationApi P}
    (coordinates : Coordinates.t) : LocationService.ReverseRequest := {|
  LocationService.url := LocationService.API_ENDPOINTS_NOMINATIM +:+ "/reverse";
  LocationService.params_lat := Coordinates.latitude coordinates;
  LocationService.params_lon := Coordinates.longitude coordinates;
  LocationService.params_format := "json";
  LocationService.params_accept_language := "de";
  LocationService.headers_user_agent := LocationService.APP_CONFIG_USER_AGENT |}.

(** A device with permission and a fix, whose reverse lookup fails. *)
Definition offlinePlatform : LocationService.LocationApi unit := {|
  LocationService.Location_requestForegroundPermissionsAsync p := (Ok "granted"%string, p);
  LocationService.Location_getCurrentPositionAsync p :=
    (Ok (LocationService.mkLocationObject LocationTerms.berlin 0), p);
  LocationService.Location_watchPositionAsync _ p := (Ok tt, p);
  LocationService.axios_get _ p := (Throw (mkError "Network Error"), p);
  LocationService.parseFloat _ := 0%Q;
  LocationService.API_ENDPOINTS_NOMINATIM := "https://nominatim.openstreetmap.org";
  LocationService.APP_CONFIG_USER_AGENT := "TravelGuideApp/1.0";
|}.

(** A component that tracks with a watch subscribed when the hook held
    [first_report]. *)
Definition tracking_component : UseLocation.Component (P := unit) :=
  UseLocation.mkComponent
    (LocationService.mkWorld tt
       {[ 0%nat := UseLocation.OnPosition (Some LocationTerms.first_report) ]} 1%nat []
       (UseLocation.mkHookState (Some LocationTerms.first_report) None false None))
    true (Some (UseLocation.mkCleanup (Some 0%nat))).

End ExtraTerms.

(** * Properties *)

(** ** The JSON text of numeric entries reads back *)

Module EntryTextFacts.

Import EntryText StorageTerms.

Lemma append_nil (s : string) : EmptyString +:+ s = s.
Proof. reflexivity. Qed.

Lemma append_cons (c : ascii) (s t : string) : String c s +:+ t = String c (s +:+ t).
Proof. reflexivity. Qed.

Ltac push_append := rewrite ?append_cons, ?append_nil.

Lemma read_digits_stops (rest : string) (acc : Z) :
  stops rest -> read_digits rest acc = (acc, rest).
Proof.
  destruct rest as [|c rest]; [reflexivity|].
  unfold stops. intros Hstop. cbn [read_digits]. rewrite Hstop. reflexivity.
Qed.

Lemma read_digits_uint (d : Decimal.uint) (rest : string) (acc : Z) :
  stops rest ->
  read_digits (NilEmpty.string_of_uint d +:+ rest) acc = (uint_value d acc, rest).
Proof.
  intros Hstop. revert acc.
  induction d as [|d IH|d IH|d IH|d IH|d IH|d IH|d IH|d IH|d IH|d IH]; intros acc;
    cbn [NilEmpty.string_of_uint uint_value]; push_append;
    [apply read_digits_stops, Hstop|..];
    cbn [read_digits];
    match goal with |- context [digit ?c] =>
      let v := eval vm_compute in (digit c) in change (digit c) with v end;
    cbv iota; apply IH.
Qed.

Lemma uint_value_acc (d : Decimal.uint) (acc : positive) :
  uint_value d (Z.pos acc) = Z.pos (Pos.of_uint_acc d acc).
Proof.
  revert acc.
  induction d as [|d IH|d IH|d IH|d IH|d IH|d IH|d IH|d IH|d IH|d IH]; intros acc;
    cbn [uint_value Pos.of_uint_acc]; [reflexivity|..];
    rewrite <- IH; f_equal; lia.
Qed.

Lemma uint_value_of_uint (d : Decimal.uint) :
  uint_value d 0 = Z.of_N (Pos.of_uint d).
Proof.
  induction d as [|d IH|d IH|d IH|d IH|d IH|d IH|d IH|d IH|d IH|d IH];
    cbn [uint_value Pos.of_uint]; [reflexivity|exact IH|..];
    cbn [Z.of_N]; rewrite <- uint_value_acc; reflexivity.
Qed.

Lemma to_uint_value (p : positive) : uint_value (Pos.to_uint p) 0 = Z.pos p.
Proof. rewrite uint_value_of_uint, DecimalPos.Unsigned.of_to. reflexivity. Qed.

(** A numeral of a positive number starts with a digit. *)
Lemma to_uint_head (p : positive) :
  exists c s n,
    NilEmpty.string_of_uint (Pos.to_uint p) = String c s
    /\ digit c = Some n /\ Ascii.eqb "-" c = false.
Proof.
  pose proof (DecimalPos.Unsigned.of_to p) as Hp.
  destruct (Pos.to_uint p); [discriminate|..]; cbn [NilEmpty.string_of_uint];
    (eexists; eexists; eexists; split; [reflexivity|split; reflexivity]).
Qed.

Lemma to_uint_string (p : positive) :
  NilZero.string_of_uint (Pos.to_uint p) = NilEmpty.string_of_uint (Pos.to_uint p).
Proof.
  pose proof (DecimalPos.Unsigned.of_to p) as Hp.
  destruct (Pos.to_uint p); [discriminate|..]; reflexivity.
Qed.

Lemma read_nat_pos (p : positive) (rest : string) :
  stops rest ->
  read_nat (NilEmpty.string_of_uint (Pos.to_uint p) +:+ rest) = Some (Z.pos p, rest).
Proof.
  intros Hstop. unfold read_nat.
  destruct (to_uint_head p) as (c & s & n & Hs & Hc & _).
  pose proof (read_digits_uint (Pos.to_uint p) rest 0 Hstop) as Hr.
  rewrite Hs in *. rewrite append_cons in *. rewrite Hc, Hr, to_uint_value.
  reflexivity.
Qed.

Lemma strip_minus_pos (p : positive) (rest : string) :
  strip_prefix "-" (NilEmpty.string_of_uint (Pos.to_uint p) +:+ rest) = None.
Proof.
  destruct (to_uint_head p) as (c & s & n & Hs & _ & Hc).
  rewrite Hs, append_cons. cbn [strip_prefix]. rewrite Hc. reflexivity.
Qed.

(** Reading back a printed integer. *)
Lemma read_int_show (z : Z) (rest : string) :
  stops rest -> read_int (show z +:+ rest) = Some (z, rest).
Proof.
  intros Hstop. unfold read_int, show.
  destruct z as [|p|p]; cbn [Z.to_int NilZero.string_of_int].
  - change (NilZero.string_of_uint (Decimal.D0 Decimal.Nil)) with "0".
    push_append. cbn [strip_prefix].
    change (Ascii.eqb "-" "0") with false. cbv iota.
    unfold read_nat. change (digit "0") with (Some 0). cbv iota.
    cbn [read_digits]. change (digit "0") with (Some 0). cbv iota.
    rewrite read_digits_stops by exact Hstop. reflexivity.
  - rewrite to_uint_string, strip_minus_pos. apply read_nat_pos, Hstop.
  - rewrite to_uint_string. push_append. cbn [strip_prefix].
    change (Ascii.eqb "-" "-") with true. cbv iota.
    rewrite read_nat_pos by exact Hstop. reflexivity.
Qed.

Lemma strip_prefix_app (p s : string) : strip_prefix p (p +:+ s) = Some s.
Proof.
  induction p as [|c p IH]; [destruct s; reflexivity|].
  rewrite append_cons. cbn [strip_prefix]. rewrite Ascii.eqb_refl. exact IH.
Qed.

(** The reader inverts the printer on every entry. *)
Lemma numericEntryJson_reads_back (e : CacheEntry.t Z) :
  JSON_parse (stringify e) = Ok (Some e).
Proof.
  destruct e as [d t x]. cbn [JSON_parse numericEntryJson]. unfold parse.
  assert (String.eqb (stringify (CacheEntry.mk d t x)) "null" = false) as ->
    by reflexivity.
  assert (read_entry (stringify (CacheEntry.mk d t x)) = Some (CacheEntry.mk d t x)) as ->;
    [|reflexivity].
  unfold read_entry.
  change (stringify (CacheEntry.mk d t x)) with
    (("{" +:+ field "data") +:+ show d
     +:+ ("," +:+ field "timestamp") +:+ show t
     +:+ ("," +:+ field "expiresIn") +:+ show x +:+ "}").
  rewrite strip_prefix_app. cbn [mbind option_bind].
  rewrite read_int_show by reflexivity. cbn [mbind option_bind].
  rewrite strip_prefix_app. cbn [mbind option_bind].
  rewrite read_int_show by reflexivity. cbn [mbind option_bind].
  rewrite strip_prefix_app. cbn [mbind option_bind].
  rewrite read_int_show by reflexivity. cbn [mbind option_bind].
  reflexivity.
Qed.

End EntryTextFacts.

(** ** The cache store *)

Module StorageFacts.

Import StorageService StorageTerms.

Ltac run :=
  unfold result, after, getCached, setCached, get, set, remove, clear,
    try_catch, bind, ret, lift, throw, on_backend, Date_now, console_error;
  simpl.

Section AnyBackend.
Context {S : Type} `{AsyncStorageApi S}.

Lemma get_result {T} `{Json T} (key : string) (w : World S) :
  result (get key) w = Ok (get_answer key w).
Proof.
  unfold get_answer. run.
  destruct (AsyncStorage_getItem key (backend w)) as [[[text|]|e] s]; simpl; try reflexivity.
  destruct (JSON_parse text); reflexivity.
Qed.

Lemma get_now {T} `{Json T} (key : string) (w : World S) :
  now (after (get key) w) = now w.
Proof.
  run.
  destruct (AsyncStorage_getItem key (backend w)) as [[[text|]|e] s]; simpl; try reflexivity.
  destruct (JSON_parse text); reflexivity.
Qed.

Lemma set_result {T} `{Json T} (key : string) (value : T) (w : World S) :
  result (set key value) w = Ok (set_answer key value w).
Proof.
  unfold set_answer. run.
  destruct (JSON_stringify value) as [text|e]; simpl; try reflexivity.
  destruct (AsyncStorage_setItem key text (backend w)) as [[[]|e] s]; reflexivity.
Qed.

Lemma remove_result (key : string) (w : World S) :
  result (remove key) w = Ok (returns (fst (AsyncStorage_removeItem key (backend w)))).
Proof.
  run. destruct (AsyncStorage_removeItem key (backend w)) as [[[]|e] s]; reflexivity.
Qed.

Lemma clear_result (w : World S) :
  result clear w = Ok (returns (fst (AsyncStorage_clear (backend w)))).
Proof.
  run. destruct (AsyncStorage_clear (backend w)) as [[[]|e] s]; reflexivity.
Qed.

Lemma getCached_result {T} `{Json (CacheEntry.t T)} (key : string) (w : World S) :
  result (getCached key) w =
  Ok (match get_answer key w with
      | Some entry =>
          if now w - CacheEntry.timestamp entry >? CacheEntry.expiresIn entry
          then None
          else Some (CacheEntry.data entry)
      | None => None
      end).
Proof.
  pose proof (get_result (T := CacheEntry.t T) key w) as Hr.
  pose proof (get_now (T := CacheEntry.t T) key w) as Hn.
  unfold result, after in Hr, Hn.
  unfold result, getCached, try_catch, bind.
  destruct (get key w) as [r w1]. simpl in Hr, Hn. subst r.
  destruct (get_answer key w) as [entry|]; [|reflexivity].
  unfold Date_now. rewrite Hn.
  destruct (now w - CacheEntry.timestamp entry >? CacheEntry.expiresIn entry);
    [|reflexivity].
  pose proof (remove_result key w1) as Hx. unfold result in Hx.
  destruct (remove key w1) as [r2 w2]. simpl in Hx. subst r2. reflexivity.
Qed.

Lemma setCached_result {T} `{Json (CacheEntry.t T)}
    (key : string) (data : T) (ttl : Z) (w : World S) :
  result (setCached key data ttl) w =
  Ok (set_answer key (CacheEntry.mk data (now w) ttl) w).
Proof.
  unfold result, setCached, bind, Date_now.
  apply (set_result key (CacheEntry.mk data (now w) ttl) w).
Qed.

(** C5: no operation of the cache store lets an error of the backend or
    of the JSON codec escape.  Whatever AsyncStorage and JSON do, [get],
    [set], [remove], [getCached], [setCached] and [clear] complete
    normally; a read answers absent when the backend or the parser
    failed, exactly as when the key is missing, and a write or delete
    answers [false] when the backend or the serialiser failed. *)
Theorem storage_failures_are_absorbed {T} `{Json T} `{Json (CacheEntry.t T)}
    (key : string) (value : T) (ttl : Z) (w : World S) :
  (returns (result (get (T := T) key) w) = true
   /\ returns (result (set key value) w) = true
   /\ returns (result (remove key) w) = true
   /\ returns (result (getCached (T := T) key) w) = true
   /\ returns (result (setCached key value ttl) w) = true
   /\ returns (result clear w) = true)
  /\ (returns (fst (AsyncStorage_getItem key (backend w))) = false ->
       result (get (T := T) key) w = Ok None
       /\ result (getCached (T := T) key) w = Ok None)
  /\ (forall text,
        fst (AsyncStorage_getItem key (backend w)) = Ok (Some text) ->
        (returns (JSON_parse (T := T) text) = false ->
           result (get (T := T) key) w = Ok None)
        /\ (returns (JSON_parse (T := CacheEntry.t T) text) = false ->
             result (getCached (T := T) key) w = Ok None))
  /\ (fst (AsyncStorage_getItem key (backend w)) = Ok None ->
       result (get (T := T) key) w = Ok None
       /\ result (getCached (T := T) key) w = Ok None)
  /\ (returns (JSON_stringify value) = false ->
       result (set key value) w = Ok false)
  /\ (forall text,
        JSON_stringify value = Ok text ->
        returns (fst (AsyncStorage_setItem key text (backend w))) = false ->
        result (set key value) w = Ok false)
  /\ (returns (JSON_stringify (CacheEntry.mk value (now w) ttl)) = false ->
       result (setCached key value ttl) w = Ok false)
  /\ (forall text,
        JSON_stringify (CacheEntry.mk value (now w) ttl) = Ok text ->
        returns (fst (AsyncStorage_setItem key text (backend w))) = false ->
        result (setCached key value ttl) w = Ok false)
  /\ (returns (fst (AsyncStorage_removeItem key (backend w))) = false ->
       result (remove key) w = Ok false)
  /\ (returns (fst (AsyncStorage_clear (backend w))) = false ->
       result clear w = Ok false).
Proof.
  rewrite !get_result, !set_result, remove_result, getCached_result,
    setCached_result, clear_result.
  unfold get_answer, set_answer.
  repeat match goal with |- _ /\ _ => split end; try reflexivity.
  - intros Hfail.
    destruct (fst (AsyncStorage_getItem key (backend w))) as [[text|]|e];
      simpl in *; split; congruence.
  - intros text Hget. rewrite Hget.
    split; intros Hparse; destruct (JSON_parse text); simpl in *; congruence.
  - intros Hmiss. rewrite Hmiss. split; reflexivity.
  - intros Hfail. destruct (JSON_stringify value); simpl in *; congruence.
  - intros text -> Hfail. rewrite Hfail. reflexivity.
  - intros Hfail.
    destruct (JSON_stringify (CacheEntry.mk value (now w) ttl)); simpl in *; congruence.
  - intros text -> Hfail. rewrite Hfail. reflexivity.
  - intros ->. reflexivity.
  - intros ->. reflexivity.
Qed.

End AnyBackend.

(** *** On a working backend *)

Section MemoryBackend.
Context {T : Type} `{Json (CacheEntry.t T)}.

Abbreviation Store := (gmap string string).

(** One read of a key that holds the text of an entry. *)
Lemma getCached_stored (key text : string) (entry : CacheEntry.t T) (w : World Store) :
  backend w !! key = Some text ->
  JSON_parse text = Ok (Some entry) ->
  getCached key w =
  if now w - CacheEntry.timestamp entry >? CacheEntry.expiresIn entry
  then (Ok None, mkWorld (delete key (backend w)) (now w) (console w))
  else (Ok (Some (CacheEntry.data entry)), w).
Proof.
  intros Hstored Hparse. destruct w as [store t log]. simpl in *.
  run. rewrite Hstored. simpl. rewrite Hparse. simpl.
  destruct (t - CacheEntry.timestamp entry >? CacheEntry.expiresIn entry);
    reflexivity.
Qed.

(** One write on a working backend. *)
Lemma setCached_stored (key text : string) (data : T) (ttl : Z) (w : World Store) :
  JSON_stringify (CacheEntry.mk data (now w) ttl) = Ok text ->
  setCached key data ttl w =
  (Ok true, mkWorld (<[key := text]> (backend w)) (now w) (console w)).
Proof.
  intros Htext. destruct w as [store t log]. simpl in *.
  run. rewrite Htext. reflexivity.
Qed.

(** C3: a key holds an entry written at [timestamp] with [expiresIn].  A
    [getCached] at a time with [now - timestamp > expiresIn] answers
    absent and deletes the key; at any other time it answers the stored
    data and changes nothing.  With [expiresIn = 1000]: absent and gone at
    [timestamp + 1001], the data at [timestamp + 999]. *)
Theorem getCached_expiry (key text : string) (entry : CacheEntry.t T) (w : World Store) :
  backend w !! key = Some text ->
  JSON_parse text = Ok (Some entry) ->
  (now w - CacheEntry.timestamp entry > CacheEntry.expiresIn entry ->
     result (getCached key) w = Ok None
     /\ backend (after (getCached key) w) = delete key (backend w))
  /\ (now w - CacheEntry.timestamp entry <= CacheEntry.expiresIn entry ->
       result (getCached key) w = Ok (Some (CacheEntry.data entry))
       /\ after (getCached key) w = w)
  /\ (CacheEntry.expiresIn entry = 1000 ->
       now w = CacheEntry.timestamp entry + 1001 ->
       result (getCached key) w = Ok None
       /\ backend (after (getCached key) w) !! key = None)
  /\ (CacheEntry.expiresIn entry = 1000 ->
       now w = CacheEntry.timestamp entry + 999 ->
       result (getCached key) w = Ok (Some (CacheEntry.data entry))
       /\ backend (after (getCached key) w) !! key = Some text).
Proof.
  intros Hstored Hparse.
  pose proof (getCached_stored key text entry w Hstored Hparse) as Hrun.
  unfold result, after.
  destruct (Z.gtb_spec (now w - CacheEntry.timestamp entry) (CacheEntry.expiresIn entry))
    as [Hlate|Hfresh]; rewrite Hrun; simpl;
    repeat match goal with |- _ /\ _ => split end; intros;
    first [ lia | split; try reflexivity ].
  - apply lookup_delete_eq.
  - assumption.
Qed.

(** C10: the comparison is strict.  When [now - timestamp] equals
    [expiresIn] the read still answers the stored data and the key stays;
    an absent answer means [now - timestamp] strictly exceeds
    [expiresIn]. *)
Theorem getCached_boundary (key text : string) (entry : CacheEntry.t T) (w : World Store) :
  backend w !! key = Some text ->
  JSON_parse text = Ok (Some entry) ->
  (now w - CacheEntry.timestamp entry = CacheEntry.expiresIn entry ->
     result (getCached key) w = Ok (Some (CacheEntry.data entry))
     /\ backend (after (getCached key) w) !! key = Some text)
  /\ (result (getCached key) w = Ok None ->
       now w - CacheEntry.timestamp entry > CacheEntry.expiresIn entry).
Proof.
  intros Hstored Hparse.
  pose proof (getCached_stored key text entry w Hstored Hparse) as Hrun.
  unfold result, after.
  destruct (Z.gtb_spec (now w - CacheEntry.timestamp entry) (CacheEntry.expiresIn entry))
    as [Hlate|Hfresh]; rewrite Hrun; simpl; split; intros Hx.
  - lia.
  - lia.
  - split; [reflexivity | assumption].
  - discriminate Hx.
Qed.

(** C8: write, then read.  After [setCached key v ttl] at time [now w],
    a [getCached key] at any later moment with less than [ttl] elapsed, on
    a store whose [key] was not written in between, answers [v]; the
    value must be one that JSON carries ([text] is its entry's text and
    reads back as that entry). *)
Theorem setCached_getCached (key text : string) (v : T) (ttl : Z) (w w2 : World Store) :
  0 < ttl ->
  JSON_stringify (CacheEntry.mk v (now w) ttl) = Ok text ->
  JSON_parse text = Ok (Some (CacheEntry.mk v (now w) ttl)) ->
  backend w2 !! key = backend (after (setCached key v ttl) w) !! key ->
  now w2 - now w < ttl ->
  result (setCached key v ttl) w = Ok true
  /\ result (getCached key) w2 = Ok (Some v).
Proof.
  intros Hpos Htext Hparse Hsame Hbefore.
  unfold result, after in *.
  rewrite (setCached_stored key text v ttl w Htext) in *. simpl in Hsame.
  rewrite lookup_insert_eq in Hsame.
  split; [reflexivity|].
  rewrite (getCached_stored key text _ w2 Hsame Hparse). simpl.
  destruct (Z.gtb_spec (now w2 - now w) ttl); [lia | reflexivity].
Qed.

End MemoryBackend.

(** For integer payloads and the JSON text of their entries nothing is
    assumed about the codec: the round trip holds for every key, value,
    duration and moment up to and including expiry. *)
Lemma setCached_getCached_numeric (key : string) (v ttl : Z)
    (w w2 : World (gmap string string)) :
  backend w2 !! key = backend (after (setCached key v ttl) w) !! key ->
  now w2 - now w <= ttl ->
  result (setCached key v ttl) w = Ok true
  /\ result (getCached key) w2 = Ok (Some v).
Proof.
  intros Hsame Hbefore. unfold result, after in *.
  rewrite (setCached_stored (H := numericEntryJson) key
             (EntryText.stringify (CacheEntry.mk v (now w) ttl))
             v ttl w eq_refl) in *.
  simpl in Hsame. rewrite lookup_insert_eq in Hsame.
  split; [reflexivity|].
  rewrite (getCached_stored (H := numericEntryJson) key _ _ w2 Hsame
             (EntryTextFacts.numericEntryJson_reads_back _)). simpl.
  destruct (Z.gtb_spec (now w2 - now w) ttl); [lia | reflexivity].
Qed.

End StorageFacts.

(** *** The spec's example, on JSON text

    An entry with payload 42 written at [T0 = 1700000000000] with
    [expiresIn = 1000], stored as the text JSON gives it. *)

Module StorageExamples.

Import StorageService StorageTerms StorageFacts.

Lemma getCached_expiry_witness :
  (result (getCached (T := Z) "attractions") (world_at (T0 + 1001)) = Ok None
   /\ backend (after (getCached (T := Z) "attractions") (world_at (T0 + 1001)))
        !! "attractions"%string = None)
  /\ (result (getCached (T := Z) "attractions") (world_at (T0 + 999)) = Ok (Some 42)
      /\ backend (after (getCached (T := Z) "attractions") (world_at (T0 + 999)))
           !! "attractions"%string = Some text).
Proof.
  split.
  - refine (proj1 (proj2 (proj2
      (getCached_expiry "attractions" text entry (world_at (T0 + 1001)) _ _))) _ _);
      vm_compute; reflexivity.
  - refine (proj2 (proj2 (proj2
      (getCached_expiry "attractions" text entry (world_at (T0 + 999)) _ _))) _ _);
      vm_compute; reflexivity.
Defined.

Lemma getCached_boundary_witness :
  result (getCached (T := Z) "attractions") (world_at (T0 + 1000)) = Ok (Some 42)
  /\ backend (after (getCached (T := Z) "attractions") (world_at (T0 + 1000)))
       !! "attractions"%string = Some text.
Proof.
  refine (proj1
    (getCached_boundary "attractions" text entry (world_at (T0 + 1000)) _ _) _);
    vm_compute; reflexivity.
Defined.

Lemma setCached_getCached_witness :
  result (setCached "attractions" 42 1000) (mkWorld ∅ T0 []) = Ok true
  /\ result (getCached (T := Z) "attractions") (world_at (T0 + 999)) = Ok (Some 42).
Proof.
  refine (setCached_getCached "attractions" text 42 1000
            (mkWorld ∅ T0 []) (world_at (T0 + 999)) _ _ _ _ _);
    vm_compute; reflexivity.
Defined.

End StorageExamples.

(** ** The relevance merge and the classification step *)

Module OpenAIFacts.

Import OpenAIService OpenAITerms.

Lemma or_string_empty (s : string) : or_string (Some s) EmptyString = s.
Proof. destruct s; reflexivity. Qed.

(** The merge, position by position: what the code writes into the two
    interest fields. *)
Lemma merge_lookup (attractions : list Attraction.t) (scores : list AttractionScore.t)
    (i : nat) (a : Attraction.t) :
  attractions !! i = Some a ->
  exists b,
    mergeScoresWithAttractions attractions scores !! i = Some b
    /\ base_fields b = base_fields a
    /\ match score_for scores a with
       | Some s =>
           Attraction.interestScore b =
             Some (if truthy_number (AttractionScore.score s)
                   then AttractionScore.score s else 5%Q)
           /\ Attraction.interestReason b = Some (AttractionScore.reason s)
       | None =>
           Attraction.interestScore b = Some 5%Q
           /\ Attraction.interestReason b = Some EmptyString
       end.
Proof.
  intros Hi. unfold mergeScoresWithAttractions.
  change (@map) with (@fmap list _). rewrite list_lookup_fmap, Hi. simpl.
  eexists. split; [reflexivity|]. split; [reflexivity|]. simpl.
  unfold score_for. destruct (find _ scores) as [s|]; simpl.
  - split; [reflexivity|]. f_equal. apply or_string_empty.
  - split; reflexivity.
Qed.

(** C6: the merge neither adds, drops, duplicates nor reorders: the
    output has the length of the input, and position by position it is
    the input attraction with every field other than [interestScore] and
    [interestReason] unchanged, for any scores list. *)
Theorem merge_keeps_attractions
    (attractions : list Attraction.t) (scores : list AttractionScore.t) :
  List.length (mergeScoresWithAttractions attractions scores) = List.length attractions
  /\ map base_fields (mergeScoresWithAttractions attractions scores)
     = map base_fields attractions
  /\ (forall i a, attractions !! i = Some a ->
        exists b, mergeScoresWithAttractions attractions scores !! i = Some b
                  /\ base_fields b = base_fields a)
  /\ (forall i, attractions !! i = None ->
        mergeScoresWithAttractions attractions scores !! i = None).
Proof.
  repeat match goal with |- _ /\ _ => split end.
  - unfold mergeScoresWithAttractions. apply List.length_map.
  - unfold mergeScoresWithAttractions. rewrite List.map_map. reflexivity.
  - intros i a Hi.
    destruct (merge_lookup attractions scores i a Hi) as (b & Hb & Hbase & _).
    exists b. split; assumption.
  - intros i Hi. unfold mergeScoresWithAttractions.
    change (@map) with (@fmap list _). rewrite list_lookup_fmap, Hi. reflexivity.
Qed.

(** The two examples of the spec. *)
Example merge_matched :
  mergeScoresWithAttractions [museum] [AttractionScore.mk "A" 8%Q "x"]
  = [with_interest museum 8%Q "x"].
Proof. reflexivity. Qed.

Example merge_unmatched :
  mergeScoresWithAttractions [museum] [] = [with_interest museum 5%Q EmptyString].
Proof. reflexivity. Qed.

Example merge_case_sensitive :
  mergeScoresWithAttractions [museum] [AttractionScore.mk "a" 8%Q "x"]
  = [with_interest museum 5%Q EmptyString].
Proof. reflexivity. Qed.

(** C1, where code and claim part: a matched score of 0.  Whenever the
    first score with the attraction's name has the value 0, the merge
    stores the default 5, not 0, next to the matched reason; so for the
    list that rates "A" with 0 and the reason x. *)
Theorem merge_zero_score_is_replaced :
  (forall attractions scores i a s,
     attractions !! i = Some a ->
     score_for scores a = Some s ->
     (AttractionScore.score s == 0)%Q ->
     exists b,
       mergeScoresWithAttractions attractions scores !! i = Some b
       /\ Attraction.interestScore b = Some 5%Q
       /\ Attraction.interestReason b = Some (AttractionScore.reason s))
  /\ mergeScoresWithAttractions [museum] [AttractionScore.mk "A" 0%Q "x"]
     = [with_interest museum 5%Q "x"]
  /\ Attraction.interestScore (with_interest museum 5%Q "x") <> Some 0%Q.
Proof.
  split; [|split; [reflexivity | discriminate]].
  intros attractions scores i a s Hi Hs Hzero.
  destruct (merge_lookup attractions scores i a Hi) as (b & Hb & _ & Hint).
  rewrite Hs in Hint. destruct Hint as [Hscore Hreason].
  exists b. split; [exact Hb|]. split; [|exact Hreason].
  rewrite Hscore. unfold truthy_number.
  unfold Qeq in Hzero. simpl in Hzero.
  replace (Qnum (AttractionScore.score s)) with 0%Z by lia. reflexivity.
Qed.

(** *** classifyAttractions *)

Section Classification.
Context `{Platform}.

Lemma skipped_guard (userInterests : list string) :
  (List.length userInterests =? 0)%nat || negb (isValidApiKey getOpenApiKey)
  = skipped userInterests.
Proof.
  unfold skipped, isValidApiKey, getOpenApiKey.
  destruct (String.prefix "sk" (config_get "openai_api_key")); reflexivity.
Qed.

Lemma classifyAttractions_run
    (attractions : list Attraction.t) (userInterests : list string) (w : World) :
  result (classifyAttractions attractions userInterests) w =
    Ok (if skipped userInterests then attractions
        else classified attractions
               (network (classification_request attractions userInterests)))
  /\ sent (after (classifyAttractions attractions userInterests) w) =
       (if skipped userInterests then sent w
        else classification_request attractions userInterests :: sent w)
  /\ (skipped userInterests = true ->
       after (classifyAttractions attractions userInterests) w = w).
Proof.
  unfold classifyAttractions. rewrite skipped_guard.
  destruct (skipped userInterests).
  { repeat split; try reflexivity. }
  unfold getOpenApiKey. cbv zeta.
  fold (classification_request attractions userInterests).
  unfold result, after, try_catch, bind, axios, classified. simpl.
  destruct (network (classification_request attractions userInterests))
    as [[choices]|e]; simpl.
  2: { repeat split; try reflexivity; discriminate. }
  destruct choices as [|choice rest]; simpl.
  { repeat split; try reflexivity; discriminate. }
  unfold parseScoresFromResponse, try_catch, lift, bind, console_error, ret.
  fold (scores_text (content choice)).
  destruct (JSON_parse (scores_text (content choice))) as [[scores|]|e]; simpl.
  - repeat split; try reflexivity; discriminate.
  - destruct attractions; simpl; repeat split; try reflexivity; discriminate.
  - repeat split; try reflexivity; discriminate.
Qed.

Lemma merge_no_scores (attractions : list Attraction.t) :
  mergeScoresWithAttractions attractions []
  = map (fun a => with_interest a 5%Q EmptyString) attractions.
Proof. reflexivity. Qed.

(** C7, as the code has it: the step never raises.  With no interests or
    a key that does not start with sk it answers the input list and sends
    nothing.  Otherwise it sends one request; when the request fails, the
    response has no choice, or the scores parse to null, it answers the
    input list; when the score text does not parse, the scores count as
    empty and the answer is the input list with the neutral defaults 5
    and the empty reason written into every attraction. *)
Theorem classifyAttractions_outcome
    (attractions : list Attraction.t) (userInterests : list string) (w : World) :
  returns (result (classifyAttractions attractions userInterests) w) = true
  /\ ((userInterests = [] \/ String.prefix "sk" (config_get "openai_api_key") = false) ->
       classifyAttractions attractions userInterests w = (Ok attractions, w))
  /\ (skipped userInterests = false ->
       sent (after (classifyAttractions attractions userInterests) w)
       = classification_request attractions userInterests :: sent w)
  /\ (skipped userInterests = false ->
       returns (network (classification_request attractions userInterests)) = false ->
       result (classifyAttractions attractions userInterests) w = Ok attractions)
  /\ (forall response,
        skipped userInterests = false ->
        network (classification_request attractions userInterests) = Ok response ->
        data_choices response = [] ->
        result (classifyAttractions attractions userInterests) w = Ok attractions)
  /\ (forall response choice rest,
        skipped userInterests = false ->
        network (classification_request attractions userInterests) = Ok response ->
        data_choices response = choice :: rest ->
        result (classifyAttractions attractions userInterests) w =
          Ok (match JSON_parse (scores_text (content choice)) with
              | Throw _ => map (fun a => with_interest a 5%Q EmptyString) attractions
              | Ok (Some scores) => mergeScoresWithAttractions attractions scores
              | Ok None => attractions
              end)).
Proof.
  destruct (classifyAttractions_run attractions userInterests w) as (Hres & Hsent & Hskip).
  repeat match goal with |- _ /\ _ => split end.
  - rewrite Hres. reflexivity.
  - intros Hguard.
    assert (skipped userInterests = true) as Hs.
    { unfold skipped. destruct Hguard as [-> | ->]; [reflexivity|].
      apply Bool.orb_true_r. }
    specialize (Hskip Hs). unfold result, after in *. rewrite Hs in Hres.
    destruct (classifyAttractions attractions userInterests w) as [r w'].
    simpl in *. congruence.
  - intros Hs. rewrite Hsent, Hs. reflexivity.
  - intros Hs Hfail. rewrite Hres, Hs. unfold classified.
    destruct (network _); [discriminate | reflexivity].
  - intros response Hs Hnet Hnone. rewrite Hres, Hs. unfold classified.
    rewrite Hnet, Hnone. reflexivity.
  - intros response choice rest Hs Hnet Hsome. rewrite Hres, Hs. unfold classified.
    rewrite Hnet, Hsome.
    destruct (JSON_parse (scores_text (content choice))) as [[scores|]|e];
      reflexivity.
Qed.

End Classification.

(** C7 as stated fails: the answer of the remote end does not parse, and
    the step does not hand back the input list unchanged. *)
Lemma classify_unparsable_changes_list :
  result (classifyAttractions (H := chattyPlatform) [museum] ["history"%string])
         (mkWorld [] [])
  <> Ok [museum].
Proof. vm_compute. discriminate. Qed.

Example classify_unparsable_gives_defaults :
  result (classifyAttractions (H := chattyPlatform) [museum] ["history"%string])
         (mkWorld [] [])
  = Ok [with_interest museum 5%Q EmptyString].
Proof. vm_compute. reflexivity. Qed.

End OpenAIFacts.

(** ** The location hook *)

Module LocationFacts.

Import LocationService UseLocation LocationTerms.

Section AnyPlatform.
Context {P : Type} `{LocationApi P} `{DistanceUtils}.

Abbreviation World := (LocationService.World P Callback HookState).

Ltac run :=
  unfold result, after, loadLocation, getCurrentLocation, watchPosition,
    watchPositionAsync, reverseGeocode, requestPermissions, onPosition, call,
    detached, setLocation, setCityInfo, setLoading, setError, set_state,
    try_finally, try_catch, bind, ret, lift, throw, on_provider,
    LocationService.console_error;
  simpl.

(** [getCurrentLocation] never raises and only touches the platform and
    the console. *)
Lemma getCurrentLocation_frame (w : World) :
  exists r p log,
    getCurrentLocation w = (Ok r, mkWorld p (watchers w) (next_subscription w) log (app w)).
Proof.
  run.
  destruct (Location_requestForegroundPermissionsAsync (provider w)) as [[status|e] p1];
    simpl; [|eauto].
  destruct (String.eqb status "granted"); simpl; [|eauto].
  destruct (Location_getCurrentPositionAsync p1) as [[pos|e] p2]; simpl; eauto.
Qed.

(** So does [reverseGeocode]. *)
Lemma reverseGeocode_frame (coordinates : Coordinates.t) (w : World) :
  exists r p log,
    reverseGeocode coordinates w
    = (Ok r, mkWorld p (watchers w) (next_subscription w) log (app w)).
Proof.
  run.
  destruct (axios_get _ (provider w)) as [[[[d|]]|e] p1]; simpl; eauto.
  destruct (address d); simpl; eauto.
Qed.

(** The hook after [loadLocation], whatever the platform did: the call
    completes, [loading] is off, and [error] is null. *)
Lemma loadLocation_state (w : World) :
  result loadLocation w = Ok tt
  /\ error (app (after loadLocation w)) = None
  /\ loading (app (after loadLocation w)) = false
  /\ watchers (after loadLocation w) = watchers w
  /\ next_subscription (after loadLocation w) = next_subscription w.
Proof.
  unfold result, after, loadLocation, try_finally, try_catch, bind,
    setLoading, setError, set_state. simpl.
  match goal with |- context [getCurrentLocation ?w0] =>
    destruct (getCurrentLocation_frame w0) as (r & p & log & ->) end.
  simpl. destruct r as [pos|]; simpl.
  - unfold setLocation, setCityInfo, set_state, ret. simpl.
    match goal with |- context [reverseGeocode ?c ?w0] =>
      destruct (reverseGeocode_frame c w0) as (r & p' & log' & ->) end.
    simpl. repeat split; reflexivity.
  - unfold ret. simpl. repeat split; reflexivity.
Qed.

(** Without a fix the hook keeps its coordinates and city, and reports
    nothing. *)
Lemma loadLocation_no_fix (w : World) :
  no_fix (provider w) = true ->
  location (app (after loadLocation w)) = location (app w)
  /\ cityInfo (app (after loadLocation w)) = cityInfo (app w)
  /\ error (app (after loadLocation w)) = None.
Proof.
  unfold no_fix. intros Hno. run.
  destruct (Location_requestForegroundPermissionsAsync (provider w)) as [[status|e] p1];
    simpl; [|repeat split; reflexivity].
  destruct (String.eqb status "granted"); simpl; [|repeat split; reflexivity].
  destruct (Location_getCurrentPositionAsync p1) as [[pos|e] p2]; simpl in *;
    [discriminate | repeat split; reflexivity].
Qed.

(** One position report to a running watch: the update is judged
    against the [location] the callback closed over, and the watch, with
    that same closure, stays registered. *)
Lemma deliver_judges_against_closure
    (id : nat) (closed : option Coordinates.t) (u : LocationObject)
    (c : Component (P := P)) :
  watchers (world c) !! id = Some (OnPosition closed) ->
  location (app (world (deliver id u c))) =
    (if hasSignificantMovement closed (coords u)
     then Some (coords u) else location (app (world c)))
  /\ watchers (world (deliver id u c)) = watchers (world c)
  /\ deps_enableTracking (deliver id u c) = deps_enableTracking c
  /\ returned (deliver id u c) = returned c.
Proof.
  intros Hwatch. unfold deliver. rewrite Hwatch.
  unfold render. simpl. rewrite Bool.eqb_reflx. simpl.
  unfold call, onPosition.
  replace {| Coordinates.latitude := Coordinates.latitude (coords u);
             Coordinates.longitude := Coordinates.longitude (coords u) |}
    with (coords u) by (destruct (coords u); reflexivity).
  destruct (hasSignificantMovement closed (coords u)).
  - unfold bind, detached, setLocation, setCityInfo, set_state. simpl.
    match goal with |- context [reverseGeocode ?x ?w0] =>
      destruct (reverseGeocode_frame x w0) as (r & p' & log' & ->) end.
    simpl. repeat split; reflexivity.
  - repeat split; reflexivity.
Qed.

(** Over any run of reports the closure is the one of subscription time:
    the baseline never moves to an accepted update. *)
Lemma deliver_all_keeps_closure
    (id : nat) (closed : option Coordinates.t) (updates : list LocationObject)
    (c : Component (P := P)) :
  watchers (world c) !! id = Some (OnPosition closed) ->
  watchers (world (deliver_all id updates c)) !! id = Some (OnPosition closed).
Proof.
  revert c. induction updates as [|u updates IH]; intros c Hwatch; simpl.
  - exact Hwatch.
  - apply IH.
    destruct (deliver_judges_against_closure id closed u c Hwatch) as (_ & -> & _).
    exact Hwatch.
Qed.

(** The watch started at mount closes over null, whatever
    [loadLocation] found in the meantime. *)
Lemma mount_closes_over_null (w : World) (s : nat) :
  returned (mount true w) = Some (mkCleanup (Some s)) ->
  watchers (world (mount true w)) !! s = Some (OnPosition None).
Proof.
  unfold mount, run_effect, effect, bind, detached, startTracking. simpl.
  match goal with |- context [loadLocation ?w0] =>
    destruct (loadLocation_state w0) as (_ & _ & _ & Hw & Hn);
    unfold after in Hw, Hn; destruct (loadLocation w0) as [r0 w1] end.
  simpl in *.
  unfold watchPosition, requestPermissions, watchPositionAsync, try_catch, bind,
    on_provider, throw, ret, LocationService.console_error. simpl.
  destruct (Location_requestForegroundPermissionsAsync (provider w1)) as [[status|e] p1];
    simpl; [|discriminate].
  destruct (String.eqb status "granted"); simpl; [|discriminate].
  destruct (Location_watchPositionAsync _ p1) as [[[]|e] p2]; simpl; [|discriminate].
  intros Hs. injection Hs as <-. apply lookup_insert_eq.
Qed.

(** With a [hasSignificantMovement] that counts every first fix as
    significant, as the spec asks, the tracker started at mount takes over
    every report, however close to the one before. *)
Lemma mounted_tracker_accepts_every_report
    (w : World) (s : nat) (updates : list LocationObject) (u : LocationObject) :
  (forall x, hasSignificantMovement None x = true) ->
  returned (mount true w) = Some (mkCleanup (Some s)) ->
  location (app (world (deliver_all s (updates ++ [u]) (mount true w))))
  = Some (coords u).
Proof.
  intros Hfirst Hs. unfold deliver_all. rewrite fold_left_app. simpl.
  pose proof (deliver_all_keeps_closure s None updates (mount true w)
                (mount_closes_over_null w s Hs)) as Hkeep.
  unfold deliver_all in Hkeep.
  destruct (deliver_judges_against_closure s None u _ Hkeep) as (-> & _).
  rewrite Hfirst. reflexivity.
Qed.

(** C9: releasing the subscription is safe when there is none.  The
    cleanup with [subscription = null] does nothing and raises nothing,
    on any platform; a component whose effect never started tracking
    unmounts without change; and a cleanup run a second time finds its
    subscription already unregistered, raises nothing and changes
    nothing.  After any cleanup its subscription is not active. *)
Theorem cleanup_is_safe (w : World) (s : nat) (enableTracking : bool)
    (c : Component (P := P)) :
  cleanup (mkCleanup None) w = (Ok tt, w)
  /\ unmount (mkComponent w enableTracking None) = w
  /\ unmount (mkComponent w enableTracking (Some (mkCleanup None))) = w
  /\ result (cleanup (mkCleanup (Some s))) w = Ok tt
  /\ watchers (after (cleanup (mkCleanup (Some s))) w) !! s = None
  /\ cleanup (mkCleanup (Some s)) (after (cleanup (mkCleanup (Some s))) w)
     = (Ok tt, after (cleanup (mkCleanup (Some s))) w)
  /\ unmount (mkComponent (unmount c) (deps_enableTracking c) (returned c)) = unmount c
  /\ (forall s', returned c = Some (mkCleanup (Some s')) ->
        watchers (unmount c) !! s' = None)
  /\ (watchers w = ∅ -> watchers (unmount (mkComponent w enableTracking None)) = ∅).
Proof.
  repeat match goal with |- _ /\ _ => split end; try reflexivity.
  - apply lookup_delete_eq.
  - unfold cleanup, after, subscription_remove. simpl.
    rewrite delete_delete_eq. reflexivity.
  - unfold unmount, run_cleanup. simpl.
    destruct (returned c) as [[[s'|]]|]; try reflexivity.
    unfold cleanup, subscription_remove. simpl.
    rewrite delete_delete_eq. reflexivity.
  - intros s' Hret. unfold unmount, run_cleanup. rewrite Hret. simpl.
    apply lookup_delete_eq.
  - intros Hnone. exact Hnone.
Qed.

End AnyPlatform.

End LocationFacts.

(** *** Concrete runs *)

Module LocationExamples.

Import LocationService UseLocation LocationTerms LocationFacts.



(** C4, where code and claim part: [loadLocation] without a fix.  On
    any platform, when the permission is not granted or the provider
    fails, the call completes and the held coordinates stay, but the
    hook's [error] is null afterwards.  So it is when the hook holds
    [berlin] and the permission is denied, or the provider is
    unavailable: the failure only reached the console. *)
Theorem loadLocation_failure_is_silent :
  (forall (P : Type) (api : LocationApi P)
          (w : LocationService.World P Callback HookState),
     no_fix (provider w) = true ->
     result loadLocation w = Ok tt
     /\ error (app (after loadLocation w)) = None
     /\ loading (app (after loadLocation w)) = false
     /\ location (app (after loadLocation w)) = location (app w))
  /\ (result (loadLocation (H := deniedPlatform)) holding = Ok tt
      /\ app (after (loadLocation (H := deniedPlatform)) holding)
         = mkHookState (Some berlin) None false None
      /\ console (after (loadLocation (H := deniedPlatform)) holding)
         = [mkLogLine "Error getting location:" (mkError "Location permission denied")])
  /\ (result (loadLocation (H := unavailablePlatform)) holding = Ok tt
      /\ app (after (loadLocation (H := unavailablePlatform)) holding)
         = mkHookState (Some berlin) None false None
      /\ console (after (loadLocation (H := unavailablePlatform)) holding)
         = [mkLogLine "Error getting location:"
                      (mkError "Location provider is unavailable")]).
Proof.
  split.
  - intros P api w Hno.
    destruct (loadLocation_state w) as (Hr & He & Hl & _).
    destruct (loadLocation_no_fix w Hno) as (Hloc & _).
    repeat split; assumption.
  - vm_compute. repeat split; reflexivity.
Qed.

(** C2, where code and claim part: a report after an accepted one.  On
    any platform and for any [hasSignificantMovement] that counts a first
    fix as significant, the tracker started at mount takes over every
    report, whatever was accepted before.  So it is when the watch
    (subscription 0) reports [first_report] and then [second_report], 11 m
    away: against the accepted [first_report] the second is insignificant,
    yet the hook takes it over, because the callback still compares with
    the [location] of subscription time, which is null. *)
Theorem tracking_baseline_is_stale :
  (forall (P : Type) (api : LocationApi P) (distance : DistanceUtils)
          (w : LocationService.World P Callback HookState) (s : nat)
          (updates : list LocationObject) (u : LocationObject),
     (forall x, hasSignificantMovement None x = true) ->
     returned (mount true w) = Some (mkCleanup (Some s)) ->
     watchers (world (deliver_all s updates (mount true w))) !! s
       = Some (OnPosition None)
     /\ location (app (world (deliver_all s (updates ++ [u]) (mount true w))))
        = Some (coords u))
  /\ location (app (world (deliver_all (H := grantedPlatform) (H0 := specDistance) 0
                             [report first_report]
                             (mount (H := grantedPlatform) true fresh))))
       = Some first_report
  /\ SpecDistance.isSignificantMovement (Some first_report) second_report = false
  /\ location (app (world (deliver_all (H := grantedPlatform) (H0 := specDistance) 0
                             [report first_report; report second_report]
                             (mount (H := grantedPlatform) true fresh))))
       = Some second_report.
Proof.
  split.
  - intros P api distance w s updates u Hfirst Hs. split.
    + apply deliver_all_keeps_closure, mount_closes_over_null, Hs.
    + apply mounted_tracker_accepts_every_report; assumption.
  - vm_compute. repeat split; reflexivity.
Qed.

End LocationExamples.


(** * Further properties *)

(** ** The JSON text of strings reads back *)

Module StringTextFacts.

Import StringText EntryTextFacts.

Lemma read_escape_char (c : ascii) (tail : string) :
  read_chars (escape_char c +:+ tail) = prepend c (read_chars tail).
Proof.
  destruct c as [[] [] [] [] [] [] [] []]; reflexivity.
Qed.

Lemma append_assoc (a b c : string) : (a +:+ b) +:+ c = a +:+ (b +:+ c).
Proof.
  induction a as [|x a IH]; [reflexivity|].
  rewrite !append_cons, IH. reflexivity.
Qed.

Lemma read_chars_escape (s rest : string) :
  read_chars (escape s +:+ String dquote rest) = Some (s, rest).
Proof.
  induction s as [|c s IH]; [reflexivity|].
  cbn [escape]. rewrite append_assoc, read_escape_char, IH. reflexivity.
Qed.

Lemma read_string_stringify (s rest : string) :
  read_string (stringify s +:+ rest) = Some (s, rest).
Proof.
  unfold stringify, read_string. rewrite append_cons.
  change (Ascii.eqb dquote dquote) with true. cbv iota.
  rewrite append_assoc, append_cons, append_nil. apply read_chars_escape.
Qed.

(** Every string reads back from its JSON text. *)
Lemma stringJson_reads_back (s : string) :
  JSON_parse (stringify s) = Ok (Some s).
Proof.
  cbn [JSON_parse stringJson]. unfold parse.
  assert (String.eqb (stringify s) "null" = false) as -> by reflexivity.
  replace (stringify s) with (stringify s +:+ EmptyString).
  - rewrite read_string_stringify. reflexivity.
  - generalize (stringify s). intros t.
    induction t as [|x t IH]; [reflexivity|]. rewrite append_cons, IH. reflexivity.
Qed.

(** Every entry with a string payload reads back from its JSON text. *)
Lemma stringEntryJson_reads_back (e : CacheEntry.t string) :
  JSON_parse (stringify_entry e) = Ok (Some e).
Proof.
  destruct e as [d t x]. cbn [JSON_parse stringEntryJson]. unfold parse_entry.
  assert (String.eqb (stringify_entry (CacheEntry.mk d t x)) "null" = false) as ->
    by reflexivity.
  assert (read_entry (stringify_entry (CacheEntry.mk d t x))
          = Some (CacheEntry.mk d t x)) as ->; [|reflexivity].
  unfold read_entry.
  change (stringify_entry (CacheEntry.mk d t x)) with
    (("{" +:+ EntryText.field "data") +:+ stringify d
     +:+ ("," +:+ EntryText.field "timestamp") +:+ EntryText.show t
     +:+ ("," +:+ EntryText.field "expiresIn") +:+ EntryText.show x +:+ "}").
  rewrite strip_prefix_app. cbn [mbind option_bind].
  rewrite read_string_stringify. cbn [mbind option_bind].
  rewrite strip_prefix_app. cbn [mbind option_bind].
  rewrite read_int_show by reflexivity. cbn [mbind option_bind].
  rewrite strip_prefix_app. cbn [mbind option_bind].
  rewrite read_int_show by reflexivity. cbn [mbind option_bind].
  reflexivity.
Qed.

End StringTextFacts.

(** ** More on the cache store *)

Module StorageExtras.

Import StorageService StorageTerms StorageFacts ExtraTerms.

Section MemoryBackend.
Context {T : Type} `{Json T}.

Abbreviation Store := (gmap string string).

Lemma get_stored (key text : string) (r : option T) (w : World Store) :
  backend w !! key = Some text ->
  JSON_parse text = Ok r ->
  get key w = (Ok r, w).
Proof.
  intros Hstored Hparse. destruct w as [store t log]. simpl in *.
  unfold get, try_catch, bind, on_backend, lift. simpl.
  rewrite Hstored, Hparse. reflexivity.
Qed.

Lemma get_missing (key : string) (w : World Store) :
  backend w !! key = None -> get (T := T) key w = (Ok None, w).
Proof.
  intros Hmiss. destruct w as [store t log]. simpl in *.
  unfold get, try_catch, bind, on_backend, ret. simpl.
  rewrite Hmiss. reflexivity.
Qed.

Lemma set_stored (key text : string) (v : T) (w : World Store) :
  JSON_stringify v = Ok text ->
  set key v w = (Ok true, mkWorld (<[key := text]> (backend w)) (now w) (console w)).
Proof.
  intros Htext. destruct w as [store t log]. simpl in *.
  unfold set, try_catch, bind, on_backend, lift, ret. simpl.
  rewrite Htext. reflexivity.
Qed.

(** X1: on a working backend, what [set] wrote under a key is what [get]
    reads there, whatever the key held before; no other key, nor the
    clock or the console, is touched.  The value must be one that JSON
    carries. *)
Theorem set_then_get (key text : string) (v : T) (w : World Store) :
  JSON_stringify v = Ok text ->
  JSON_parse text = Ok (Some v) ->
  result (set key v) w = Ok true
  /\ result (get key) (after (set key v) w) = Ok (Some v)
  /\ (forall key', key' <> key ->
        backend (after (set key v) w) !! key' = backend w !! key')
  /\ now (after (set key v) w) = now w
  /\ console (after (set key v) w) = console w.
Proof.
  intros Htext Hparse. unfold result, after.
  rewrite (set_stored key text v w Htext). simpl.
  repeat match goal with |- _ /\ _ => split end; try reflexivity.
  - rewrite (get_stored key text (Some v)); [reflexivity | | exact Hparse].
    simpl. apply lookup_insert_eq.
  - intros key' Hne. apply lookup_insert_ne. congruence.
Qed.

End MemoryBackend.

Section Forgetting.
Context {T : Type} `{Json T} `{Json (CacheEntry.t T)}.

Lemma getCached_missing (key : string) (w : World (gmap string string)) :
  backend w !! key = None -> getCached (T := T) key w = (Ok None, w).
Proof.
  intros Hmiss. unfold getCached, try_catch, bind.
  rewrite (get_missing key w Hmiss). reflexivity.
Qed.

(** X2: deleting on a working backend.  After [remove] both reads of
    the key answer absent and every other key is as before; removing
    again changes nothing; after [clear] every key reads absent; and a
    [getCached] of a key that is not there answers absent without
    touching the world. *)
Theorem remove_and_clear_forget (key : string) (w : World (gmap string string)) :
  result (remove key) w = Ok true
  /\ result (get (T := T) key) (after (remove key) w) = Ok None
  /\ result (getCached (T := T) key) (after (remove key) w) = Ok None
  /\ (forall key', key' <> key ->
        backend (after (remove key) w) !! key' = backend w !! key')
  /\ after (remove key) (after (remove key) w) = after (remove key) w
  /\ result clear w = Ok true
  /\ (forall key',
        result (get (T := T) key') (after clear w) = Ok None
        /\ result (getCached (T := T) key') (after clear w) = Ok None)
  /\ (backend w !! key = None -> getCached (T := T) key w = (Ok None, w)).
Proof.
  destruct w as [store t log]. unfold result, after.
  assert (remove key (mkWorld store t log)
          = (Ok true, mkWorld (delete key store) t log)) as Hrm by reflexivity.
  assert (clear (mkWorld store t log) = (Ok true, mkWorld ∅ t log)) as Hcl
    by reflexivity.
  rewrite Hrm, Hcl. simpl.
  repeat match goal with |- _ /\ _ => split end; try reflexivity.
  - rewrite get_missing; [reflexivity | apply lookup_delete_eq].
  - rewrite getCached_missing; [reflexivity | apply lookup_delete_eq].
  - intros key' Hne. apply lookup_delete_ne. congruence.
  - unfold remove, try_catch, bind, on_backend, ret. simpl.
    rewrite delete_delete_eq. reflexivity.
  - intros key'. split.
    + rewrite get_missing; [reflexivity | apply lookup_empty].
    + rewrite getCached_missing; [reflexivity | apply lookup_empty].
  - intros Hmiss. apply getCached_missing. exact Hmiss.
Qed.

End Forgetting.

Section Freshness.
Context {T : Type} `{Json (CacheEntry.t T)}.

(** X3: only [getCached] looks at the age of an entry.  For a stored
    entry that has expired, the raw [get] still answers the entry and
    leaves it in place, [getCached] answers absent, and after that read
    the entry is gone for the raw [get] as well. *)
Theorem get_ignores_expiry (key text : string) (entry : CacheEntry.t T)
    (w : World (gmap string string)) :
  backend w !! key = Some text ->
  JSON_parse text = Ok (Some entry) ->
  now w - CacheEntry.timestamp entry > CacheEntry.expiresIn entry ->
  get key w = (Ok (Some entry), w)
  /\ result (getCached key) w = Ok None
  /\ result (get (T := CacheEntry.t T) key) (after (getCached key) w) = Ok None
  /\ result (getCached (T := T) key) (after (getCached key) w) = Ok None.
Proof.
  intros Hstored Hparse Hlate.
  split; [apply (get_stored key text (Some entry) w Hstored Hparse)|].
  unfold result, after.
  rewrite (getCached_stored key text entry w Hstored Hparse).
  destruct (Z.gtb_spec (now w - CacheEntry.timestamp entry) (CacheEntry.expiresIn entry));
    [|lia].
  simpl. repeat split.
  - rewrite get_missing; [reflexivity | apply lookup_delete_eq].
  - unfold getCached, try_catch, bind.
    rewrite get_missing; [reflexivity | apply lookup_delete_eq].
Qed.

End Freshness.

Section Independence.
Context {T T' : Type} `{Json (CacheEntry.t T)} `{Json (CacheEntry.t T')}.

(** On a working backend a cached read sees the text under its key and
    the clock, nothing else. *)
Lemma getCached_local (key : string) (w1 w2 : World (gmap string string)) :
  backend w1 !! key = backend w2 !! key ->
  now w1 = now w2 ->
  result (getCached (T := T') key) w1 = result (getCached (T := T') key) w2.
Proof.
  intros Hkey Hnow. rewrite !getCached_result. unfold get_answer. simpl.
  rewrite Hkey, Hnow. reflexivity.
Qed.

(** X17: entries do not interfere.  On a working backend, writing an
    entry under one key, reading it (evicting it when it has expired) or
    removing it never changes what [getCached] answers for another key. *)
Theorem cache_keys_are_independent
    (key key' : string) (v : T) (ttl : Z) (w : World (gmap string string)) :
  key' <> key ->
  result (getCached (T := T') key') (after (setCached key v ttl) w)
  = result (getCached (T := T') key') w
  /\ result (getCached (T := T') key') (after (getCached (T := T) key) w)
     = result (getCached (T := T') key') w
  /\ result (getCached (T := T') key') (after (remove key) w)
     = result (getCached (T := T') key') w.
Proof.
  intros Hne. destruct w as [store t log].
  repeat match goal with |- _ /\ _ => split end; apply getCached_local.
  - unfold after, setCached, set, try_catch, bind, Date_now, lift, on_backend. simpl.
    destruct (JSON_stringify (CacheEntry.mk v t ttl)); simpl;
      [apply lookup_insert_ne; congruence | reflexivity].
  - unfold after, setCached, set, try_catch, bind, Date_now, lift, on_backend. simpl.
    destruct (JSON_stringify (CacheEntry.mk v t ttl)); reflexivity.
  - unfold after, getCached, get, remove, try_catch, bind, Date_now, lift, on_backend,
      ret. simpl.
    destruct (store !! key) as [text|]; simpl; [|reflexivity].
    destruct (JSON_parse text) as [[entry|]|e]; simpl; try reflexivity.
    destruct (t - CacheEntry.timestamp entry >? CacheEntry.expiresIn entry); simpl;
      [apply lookup_delete_ne; congruence | reflexivity].
  - unfold after, getCached, get, remove, try_catch, bind, Date_now, lift, on_backend,
      ret. simpl.
    destruct (store !! key) as [text|]; simpl; [|reflexivity].
    destruct (JSON_parse text) as [[entry|]|e]; simpl; try reflexivity.
    destruct (t - CacheEntry.timestamp entry >? CacheEntry.expiresIn entry); reflexivity.
  - simpl. apply lookup_delete_ne. congruence.
  - reflexivity.
Qed.

End Independence.

Section AnyBackend.
Context {S : Type} `{AsyncStorageApi S} {T : Type} `{Json (CacheEntry.t T)}.

(** X4: an expired entry is never served, on any backend: when the
    stored entry is older than its lifetime [getCached] answers absent
    whether or not the backend lets the key be deleted. *)
Theorem expired_entry_is_never_served (key text : string) (entry : CacheEntry.t T)
    (w : World S) :
  fst (AsyncStorage_getItem key (backend w)) = Ok (Some text) ->
  JSON_parse text = Ok (Some entry) ->
  now w - CacheEntry.timestamp entry > CacheEntry.expiresIn entry ->
  result (getCached key) w = Ok None.
Proof.
  intros Hget Hparse Hlate. rewrite getCached_result. unfold get_answer.
  rewrite Hget, Hparse.
  destruct (Z.gtb_spec (now w - CacheEntry.timestamp entry) (CacheEntry.expiresIn entry));
    [reflexivity | lia].
Qed.

End AnyBackend.

Lemma get_ignores_expiry_witness :
  get (T := CacheEntry.t Z) "attractions" stale_world
  = (Ok (Some (CacheEntry.mk 42 1700000000000 1000)), stale_world).
Proof.
  refine (proj1
    (get_ignores_expiry (T := Z) "attractions"
       (EntryText.stringify (CacheEntry.mk 42 1700000000000 1000))
       (CacheEntry.mk 42 1700000000000 1000) stale_world _ _ _));
    vm_compute; reflexivity.
Defined.

Lemma expired_entry_is_never_served_witness :
  result (getCached (H := readOnlyStorage) (T := Z) "attractions") stale_world = Ok None
  /\ backend (after (getCached (H := readOnlyStorage) (T := Z) "attractions") stale_world)
     = backend stale_world.
Proof.
  split.
  - refine (expired_entry_is_never_served (H := readOnlyStorage) (T := Z) "attractions"
       (EntryText.stringify (CacheEntry.mk 42 1700000000000 1000))
       (CacheEntry.mk 42 1700000000000 1000) stale_world _ _ _);
      vm_compute; reflexivity.
  - vm_compute. reflexivity.
Defined.

Lemma cache_keys_are_independent_witness :
  result (getCached (T := Z) "attractions")
         (after (setCached "description" "Berlin"%string 1000) stale_world)
  = result (getCached (T := Z) "attractions") stale_world.
Proof.
  refine (proj1 (cache_keys_are_independent (T := string) (T' := Z)
                   "description" "attractions" "Berlin" 1000 stale_world _)).
  discriminate.
Defined.

Lemma set_then_get_witness :
  result (get (T := string) "note")
         (after (set "note" "Berlin"%string) (mkWorld ∅ 0 [])) = Ok (Some "Berlin"%string).
Proof.
  refine (proj1 (proj2
    (set_then_get (T := string) "note" (StringText.stringify "Berlin") "Berlin"
       (mkWorld ∅ 0 []) _ _)));
    vm_compute; reflexivity.
Defined.

End StorageExtras.

(** ** The description caches *)

Module DescriptionCacheFacts.

Import StorageService StorageHelpers OpenAICache StorageFacts StorageExtras ExtraTerms.

Lemma code_unit_le_iff (a b : string) :
  code_unit_le a b <-> a = b \/ OrdersEx.String_as_OT.lt a b.
Proof.
  unfold code_unit_le.
  pose proof (@StrictOrder_Irreflexive _ _ OrdersEx.String_as_OT.lt_strorder) as Hirr.
  pose proof (@StrictOrder_Transitive _ _ OrdersEx.String_as_OT.lt_strorder) as Htr.
  destruct (OrdersEx.String_as_OT.compare_spec a b) as [Heq|Hlt|Hgt].
  - split; [intros _; left; exact Heq | discriminate].
  - split; [intros _; right; exact Hlt | discriminate].
  - split; [congruence|].
    intros [-> | Hlt]; exfalso.
    + exact (Hirr _ Hgt).
    + exact (Hirr _ (Htr _ _ _ Hlt Hgt)).
Qed.

#[local] Instance code_unit_le_total : Total code_unit_le.
Proof.
  intros a b. rewrite !code_unit_le_iff.
  destruct (OrdersEx.String_as_OT.compare_spec a b); auto.
Qed.

#[local] Instance code_unit_le_trans : Transitive code_unit_le.
Proof.
  pose proof (@StrictOrder_Transitive _ _ OrdersEx.String_as_OT.lt_strorder) as Htr.
  intros a b c. rewrite !code_unit_le_iff.
  intros [-> | Hab] [-> | Hbc]; eauto.
Qed.

#[local] Instance code_unit_le_antisym : AntiSymm (=) code_unit_le.
Proof.
  pose proof (@StrictOrder_Irreflexive _ _ OrdersEx.String_as_OT.lt_strorder) as Hirr.
  pose proof (@StrictOrder_Transitive _ _ OrdersEx.String_as_OT.lt_strorder) as Htr.
  intros a b. rewrite !code_unit_le_iff.
  intros [-> | Hab] [Heq | Hba]; try congruence.
  exfalso. exact (Hirr _ (Htr _ _ _ Hab Hba)).
Qed.

(** Sorting forgets the order the interests came in. *)
Lemma Array_sort_permutation (a b : list string) :
  a ≡ₚ b -> Array_sort a = Array_sort b.
Proof.
  intros Hperm. unfold Array_sort.
  apply (Sorted_unique code_unit_le); try apply Sorted_merge_sort; try apply _.
  rewrite !merge_sort_Permutation. exact Hperm.
Qed.

Section Caches.
Context `{Constants}.

(** X5: the helper cache is keyed by the set of interests, not by their
    order.  On a working backend, a description stored with
    [cacheAIDescription] is found by [getCachedAIDescription] for the
    same location under every reordering of the interests, for every
    description text. *)
Theorem ai_description_key_ignores_order
    (location description : string) (interests interests' : list string)
    (w : World (gmap string string)) :
  interests' ≡ₚ interests ->
  result (cacheAIDescription location interests description) w = Ok true
  /\ result (getCachedAIDescription location interests')
            (after (cacheAIDescription location interests description) w)
     = Ok (Some description).
Proof.
  intros Hperm. unfold getCachedAIDescription, cacheAIDescription, result, after.
  rewrite (Array_sort_permutation _ _ Hperm).
  rewrite (set_stored (H := stringJson) _ (StringText.stringify description)
             description w eq_refl).
  simpl. split; [reflexivity|].
  rewrite (get_stored (H := stringJson) _ (StringText.stringify description)
             (Some description));
    [reflexivity | apply lookup_insert_eq |].
  apply StringTextFacts.stringJson_reads_back.
Qed.

(** X6: the description cache of the OpenAI service.  On a working
    backend [cacheDescription] succeeds for every text; a
    [getCachedDescription] for the same location and interests answers
    the text while no more than [CACHE_DURATION.AI_DESCRIPTION] has
    passed, and afterwards answers absent and deletes the key.  The
    interests enter the key joined by commas, so any list with the same
    joined text reads the same entry. *)
Theorem description_cache_lifetime
    (location description : string) (interests : list string)
    (w w2 : World (gmap string string)) :
  result (cacheDescription location interests description) w = Ok true
  /\ (backend w2 !! description_key location interests
      = backend (after (cacheDescription location interests description) w)
          !! description_key location interests ->
      (now w2 - now w <= CACHE_DURATION_AI_DESCRIPTION ->
         result (getCachedDescription location interests) w2 = Ok (Some description))
      /\ (now w2 - now w > CACHE_DURATION_AI_DESCRIPTION ->
          result (getCachedDescription location interests) w2 = Ok None
          /\ backend (after (getCachedDescription location interests) w2)
               !! description_key location interests = None))
  /\ (forall interests',
        String.concat "," interests' = String.concat "," interests ->
        getCachedDescription (S := gmap string string) location interests'
        = getCachedDescription location interests).
Proof.
  unfold cacheDescription, getCachedDescription, result, after.
  fold (description_key location interests).
  rewrite (setCached_stored (H := stringEntryJson) (description_key location interests)
             (StringText.stringify_entry
                (CacheEntry.mk description (now w) CACHE_DURATION_AI_DESCRIPTION))
             description _ w eq_refl).
  simpl. split; [reflexivity|]. split.
  - rewrite lookup_insert_eq. intros Hsame.
    rewrite (getCached_stored (H := stringEntryJson) _ _ _ w2 Hsame
               (StringTextFacts.stringEntryJson_reads_back _)).
    simpl.
    destruct (Z.gtb_spec (now w2 - now w) CACHE_DURATION_AI_DESCRIPTION);
      split; intros; try lia; simpl; try reflexivity.
    split; [reflexivity | apply lookup_delete_eq].
  - intros interests' Hjoin. rewrite Hjoin. reflexivity.
Qed.

End Caches.

Lemma ai_description_key_ignores_order_witness :
  result (getCachedAIDescription (H0 := appConstants) "Berlin" ["museums"; "art"]%string)
         (after (cacheAIDescription (H0 := appConstants) "Berlin" ["art"; "museums"]%string
                   "Die Museumsinsel ...")
                (mkWorld ∅ 0 []))
  = Ok (Some "Die Museumsinsel ..."%string).
Proof.
  refine (proj2
    (ai_description_key_ignores_order (H := appConstants) "Berlin" "Die Museumsinsel ..."
       ["art"; "museums"]%string ["museums"; "art"]%string (mkWorld ∅ 0 []) _)).
  apply perm_swap.
Defined.

End DescriptionCacheFacts.

(** ** More on the merge and the classification step *)

Module OpenAIExtras.

Import OpenAIService OpenAITerms OpenAIFacts HomeScreen ExtraTerms.

Lemma merge_cons (a : Attraction.t) (attractions : list Attraction.t)
    (scores : list AttractionScore.t) :
  mergeScoresWithAttractions (a :: attractions) scores
  = mergeScoresWithAttractions [a] scores ++ mergeScoresWithAttractions attractions scores.
Proof. reflexivity. Qed.

Lemma merge_base_fields (attractions : list Attraction.t) (scores : list AttractionScore.t) :
  map base_fields (mergeScoresWithAttractions attractions scores)
  = map base_fields attractions.
Proof. unfold mergeScoresWithAttractions. rewrite List.map_map. reflexivity. Qed.

(** What the merge makes of one attraction depends on its base fields
    only. *)
Lemma merge_one_base (a a' : Attraction.t) (scores : list AttractionScore.t) :
  base_fields a' = base_fields a ->
  mergeScoresWithAttractions [a'] scores = mergeScoresWithAttractions [a] scores.
Proof.
  destruct a, a'. unfold base_fields. simpl. intros Hbase.
  injection Hbase as -> -> -> -> -> -> -> -> ->. reflexivity.
Qed.

Lemma merge_base (attractions attractions' : list Attraction.t)
    (scores : list AttractionScore.t) :
  map base_fields attractions' = map base_fields attractions ->
  mergeScoresWithAttractions attractions' scores
  = mergeScoresWithAttractions attractions scores.
Proof.
  revert attractions'.
  induction attractions as [|a attractions IH]; intros [|a' attractions'] Hbase;
    try discriminate; [reflexivity|].
  simpl in Hbase.
  pose proof (f_equal (fun l => List.hd (base_fields a) l) Hbase) as Ha.
  pose proof (f_equal (@List.tl _) Hbase) as Hrest. simpl in Ha, Hrest.
  rewrite (merge_cons a), (merge_cons a'), (merge_one_base a a' scores Ha),
    (IH attractions' Hrest).
  reflexivity.
Qed.

(** X7: whatever the remote end does, the classification step hands
    back the attractions it was given: it completes normally, and its
    answer has the length of the input and, position by position, the
    base fields of the input. *)
Theorem classify_keeps_the_list `{Platform}
    (attractions : list Attraction.t) (userInterests : list string) (w : World) :
  exists out,
    result (classifyAttractions attractions userInterests) w = Ok out
    /\ List.length out = List.length attractions
    /\ map base_fields out = map base_fields attractions.
Proof.
  destruct (classifyAttractions_run attractions userInterests w) as (-> & _).
  eexists. split; [reflexivity|].
  assert (forall out, map base_fields out = map base_fields attractions ->
            List.length out = List.length attractions
            /\ map base_fields out = map base_fields attractions) as Hshape.
  { intros out Hout. split; [|exact Hout].
    rewrite <- (List.length_map base_fields out), Hout. apply List.length_map. }
  apply Hshape.
  destruct (skipped userInterests); [reflexivity|].
  unfold classified.
  destruct (network _) as [[choices]|e]; [|reflexivity]. simpl.
  destruct choices as [|choice rest]; [reflexivity|].
  destruct (JSON_parse _) as [[scores|]|e]; try reflexivity; apply merge_base_fields.
Qed.

(** X8: merging is idempotent and starts from scratch: the interest
    fields an attraction had before play no part in the result, and
    merging the same scores a second time changes nothing. *)
Theorem merge_is_idempotent
    (attractions attractions' : list Attraction.t) (scores : list AttractionScore.t) :
  (map base_fields attractions' = map base_fields attractions ->
   mergeScoresWithAttractions attractions' scores
   = mergeScoresWithAttractions attractions scores)
  /\ mergeScoresWithAttractions (mergeScoresWithAttractions attractions scores) scores
     = mergeScoresWithAttractions attractions scores.
Proof.
  split; [apply merge_base|].
  apply merge_base, merge_base_fields.
Qed.

Lemma score_for_app (s1 s2 : list AttractionScore.t) (a : Attraction.t) :
  score_for (s1 ++ s2) a =
  match score_for s1 a with Some s => Some s | None => score_for s2 a end.
Proof.
  unfold score_for. induction s1 as [|s s1 IH]; [reflexivity|]. simpl.
  destruct (String.eqb (AttractionScore.name s) (Attraction.name a)); [reflexivity|exact IH].
Qed.

Lemma score_for_found (s1 : list AttractionScore.t) (s : AttractionScore.t) (a : Attraction.t) :
  In s s1 -> AttractionScore.name s = Attraction.name a ->
  exists s', score_for s1 a = Some s'.
Proof.
  unfold score_for. intros Hin Hname.
  induction s1 as [|x s1 IH]; [destruct Hin|]. simpl.
  destruct (String.eqb (AttractionScore.name x) (Attraction.name a)) eqn:Hx; [eauto|].
  destruct Hin as [-> | Hin]; [|auto].
  rewrite Hname, String.eqb_refl in Hx. discriminate.
Qed.

Lemma merge_ext (attractions : list Attraction.t) (scores scores' : list AttractionScore.t) :
  (forall a, In a attractions -> score_for scores a = score_for scores' a) ->
  mergeScoresWithAttractions attractions scores
  = mergeScoresWithAttractions attractions scores'.
Proof.
  intros Hsame. unfold mergeScoresWithAttractions. apply List.map_ext_in.
  intros a Ha. specialize (Hsame a Ha). unfold score_for in Hsame.
  rewrite Hsame. reflexivity.
Qed.

(** X9: only the first score of a name counts, and only names of
    attractions count.  A score can be dropped from the list without
    changing the merge when no attraction bears its name, and when an
    earlier score has the same name; and two attractions of the same
    name always receive the same interest fields. *)
Theorem merge_first_match_wins
    (attractions : list Attraction.t) (before after : list AttractionScore.t)
    (s : AttractionScore.t) :
  ((forall a, In a attractions -> Attraction.name a <> AttractionScore.name s) ->
   mergeScoresWithAttractions attractions (before ++ s :: after)
   = mergeScoresWithAttractions attractions (before ++ after))
  /\ ((exists s', In s' before /\ AttractionScore.name s' = AttractionScore.name s) ->
      mergeScoresWithAttractions attractions (before ++ s :: after)
      = mergeScoresWithAttractions attractions (before ++ after))
  /\ (forall scores a b,
        Attraction.name a = Attraction.name b ->
        map (fun x => (Attraction.interestScore x, Attraction.interestReason x))
            (mergeScoresWithAttractions [a] scores)
        = map (fun x => (Attraction.interestScore x, Attraction.interestReason x))
              (mergeScoresWithAttractions [b] scores)).
Proof.
  repeat match goal with |- _ /\ _ => split end.
  - intros Hnone. apply merge_ext. intros a Ha.
    rewrite !score_for_app. destruct (score_for before a); [reflexivity|].
    unfold score_for at 1. simpl.
    destruct (String.eqb_spec (AttractionScore.name s) (Attraction.name a)) as [Heq|Hne];
      [|reflexivity].
    exfalso. apply (Hnone a Ha). congruence.
  - intros (s' & Hin & Hname). apply merge_ext. intros a Ha.
    rewrite !score_for_app.
    destruct (score_for before a) eqn:Hbefore; [reflexivity|].
    unfold score_for at 1. simpl.
    destruct (String.eqb_spec (AttractionScore.name s) (Attraction.name a)) as [Heq|Hne];
      [|reflexivity].
    exfalso. destruct (score_for_found before s' a Hin) as (x & Hx); congruence.
  - intros scores a b Hname. simpl. rewrite Hname. reflexivity.
Qed.

Section Card.
Context `{AppConfig}.

(** X10: what the cards of the home screen show after a merge.  Every
    merged attraction has a truthy score, so its Match box is drawn; an
    attraction that found no score, or a score with an empty reason,
    never shows a reason line, whatever the thresholds are; and an
    attraction without a score is a Top Match exactly when the threshold
    is at most the default 5. *)
Theorem merged_cards
    (attractions : list Attraction.t) (scores : list AttractionScore.t)
    (i : nat) (a b : Attraction.t) :
  attractions !! i = Some a ->
  mergeScoresWithAttractions attractions scores !! i = Some b ->
  shows_score b = true
  /\ (score_for scores a = None ->
      shows_reason b = false /\ top_match b = ge 5%Q HIGH_INTEREST_SCORE)
  /\ (forall s, score_for scores a = Some s ->
        AttractionScore.reason s = EmptyString -> shows_reason b = false).
Proof.
  intros Ha Hb.
  destruct (merge_lookup attractions scores i a Ha) as (b' & Hb' & _ & Hint).
  rewrite Hb in Hb'. injection Hb' as <-.
  unfold shows_score, shows_reason, top_match.
  destruct (score_for scores a) as [s|].
  - destruct Hint as [-> ->]. simpl.
    repeat match goal with |- _ /\ _ => split end.
    + destruct (truthy_number (AttractionScore.score s)) eqn:Ht; [exact Ht|reflexivity].
    + discriminate.
    + intros s0 Hs0 Hempty. injection Hs0 as <-. rewrite Hempty. reflexivity.
  - destruct Hint as [-> ->]. simpl.
    repeat match goal with |- _ /\ _ => split end; [reflexivity| |discriminate].
    intros _. split; reflexivity.
Qed.

End Card.

Lemma merged_cards_witness :
  shows_score (with_interest museum 5%Q EmptyString) = true.
Proof.
  refine (proj1 (merged_cards (H := sampleConfig) [museum] [] 0 museum
                   (with_interest museum 5%Q EmptyString) _ _));
    reflexivity.
Defined.

End OpenAIExtras.

(** ** More on the location service and the hook *)

Module LocationExtras.

Import LocationService LocationSearch UseLocation LocationTerms LocationFacts ExtraTerms.

Section AnyService.
Context {P C A : Type} `{LocationApi P} `{SearchApi P}.

Ltac run :=
  unfold result, after, getCurrentLocation, watchPosition, watchPositionAsync,
    reverseGeocode, searchLocation, requestPermissions,
    try_catch, bind, ret, lift, throw, on_provider, LocationService.console_error;
  simpl.

(** X11: the location service keeps its failures to itself.  On every
    platform [getCurrentLocation], [reverseGeocode], [searchLocation] and
    [watchPosition] complete normally; the first three leave the running
    watches and the application state alone, and [watchPosition] changes
    the watches only by registering its callback under the subscription
    it returns.  Only [requestPermissions] passes a platform error on. *)
Theorem location_service_absorbs_errors
    (w : LocationService.World P C A) (callback : C) (options : option LocationOptions)
    (coordinates : Coordinates.t) (locationName : string) :
  (exists r p log,
     getCurrentLocation w
     = (Ok r, mkWorld p (watchers w) (next_subscription w) log (app w)))
  /\ (exists r p log,
        reverseGeocode coordinates w
        = (Ok r, mkWorld p (watchers w) (next_subscription w) log (app w)))
  /\ (exists r p log,
        searchLocation locationName w
        = (Ok r, mkWorld p (watchers w) (next_subscription w) log (app w)))
  /\ (exists r w',
        watchPosition callback options w = (Ok r, w')
        /\ app w' = app w
        /\ watchers w' = match r with
                         | Some id => <[id := callback]> (watchers w)
                         | None => watchers w
                         end)
  /\ (forall e p,
        Location_requestForegroundPermissionsAsync (provider w) = (Throw e, p) ->
        result requestPermissions w = Throw e).
Proof.
  repeat match goal with |- _ /\ _ => split end.
  - run.
    destruct (Location_requestForegroundPermissionsAsync (provider w)) as [[status|e] p1];
      simpl; [|eauto].
    destruct (String.eqb status "granted"); simpl; [|eauto].
    destruct (Location_getCurrentPositionAsync p1) as [[pos|e] p2]; simpl; eauto.
  - run.
    destruct (axios_get _ (provider w)) as [[[[d|]]|e] p1]; simpl; eauto.
    destruct (address d); simpl; eauto.
  - run.
    destruct (axios_get_search _ (provider w)) as [[[[[|hit hits]|]]|e] p1];
      simpl; eauto.
  - run.
    destruct (Location_requestForegroundPermissionsAsync (provider w)) as [[status|e] p1];
      simpl; [|eauto].
    destruct (String.eqb status "granted"); simpl; [|eauto].
    destruct (Location_watchPositionAsync _ p1) as [[[]|e] p2]; simpl; eauto.
  - intros e p Hthrow. run. rewrite Hthrow. reflexivity.
Qed.

(** X12: nothing happens without the permission.  When the platform
    answers the permission request with a status other than granted,
    [getCurrentLocation] and [watchPosition] answer null, the platform
    is left in the state of that answer (no position was asked for, no
    watch started), no callback is registered, and the console holds the
    one line about the denial. *)
Theorem nothing_without_permission
    (w : LocationService.World P C A) (status : string) (p1 : P) (callback : C)
    (options : option LocationOptions) :
  Location_requestForegroundPermissionsAsync (provider w) = (Ok status, p1) ->
  status <> "granted"%string ->
  getCurrentLocation w
  = (Ok None,
     mkWorld p1 (watchers w) (next_subscription w)
       (mkLogLine "Error getting location:" (mkError "Location permission denied")
        :: console w) (app w))
  /\ watchPosition callback options w
     = (Ok None,
        mkWorld p1 (watchers w) (next_subscription w)
          (mkLogLine "Error watching position:" (mkError "Location permission denied")
           :: console w) (app w)).
Proof.
  intros Hperm Hdenied. run. rewrite Hperm. simpl.
  destruct (String.eqb_spec status "granted") as [Heq|_]; [contradiction|].
  simpl. split; reflexivity.
Qed.

End AnyService.

Section AnyHook.
Context {P : Type} `{LocationApi P} `{DistanceUtils}.

Abbreviation HookWorld := (LocationService.World P Callback HookState).

(** X13: a lookup that fails costs the city, not the location.  When the
    permission is granted and the provider gives a fix, [loadLocation]
    stores the coordinates of the fix, switches [loading] off and leaves
    [error] null; the city is whatever the reverse lookup answered, so a
    failed lookup sets it to null, also if a city was held before. *)
Theorem loadLocation_with_fix (w : HookWorld) (p1 p2 : P) (pos : LocationObject) :
  Location_requestForegroundPermissionsAsync (provider w) = (Ok "granted"%string, p1) ->
  Location_getCurrentPositionAsync p1 = (Ok pos, p2) ->
  result loadLocation w = Ok tt
  /\ location (app (after loadLocation w)) = Some (coords pos)
  /\ loading (app (after loadLocation w)) = false
  /\ error (app (after loadLocation w)) = None
  /\ (returns (fst (axios_get (reverse_request (coords pos)) p2)) = false ->
      cityInfo (app (after loadLocation w)) = None).
Proof.
  intros Hperm Hpos.
  unfold result, after, loadLocation, getCurrentLocation, requestPermissions,
    reverseGeocode, try_finally, try_catch, bind, ret, throw, on_provider,
    setLocation, setCityInfo, setLoading, setError, set_state,
    LocationService.console_error.
  simpl. rewrite Hperm. simpl. rewrite Hpos. simpl.
  replace {| Coordinates.latitude := Coordinates.latitude (coords pos);
             Coordinates.longitude := Coordinates.longitude (coords pos) |}
    with (coords pos) by (destruct (coords pos); reflexivity).
  fold (reverse_request (coords pos)).
  destruct (axios_get (reverse_request (coords pos)) p2) as [[[[d|]]|e] p3]; simpl.
  - destruct (address d); simpl; repeat split; discriminate.
  - repeat split; discriminate.
  - repeat split.
Qed.

(** X14: an update that is not significant leaves no trace: the
    component, with its state, its platform (no reverse lookup was sent)
    and its console, is exactly what it was. *)
Theorem insignificant_update_changes_nothing
    (id : nat) (closed : option Coordinates.t) (u : LocationObject)
    (c : Component (P := P)) :
  watchers (world c) !! id = Some (OnPosition closed) ->
  hasSignificantMovement closed (coords u) = false ->
  deliver id u c = c.
Proof.
  intros Hwatch Hsmall. unfold deliver. rewrite Hwatch.
  unfold render. simpl. rewrite Bool.eqb_reflx.
  unfold call, onPosition.
  replace {| Coordinates.latitude := Coordinates.latitude (coords u);
             Coordinates.longitude := Coordinates.longitude (coords u) |}
    with (coords u) by (destruct (coords u); reflexivity).
  rewrite Hsmall. destruct c. reflexivity.
Qed.

(** The watch an effect starts closes over the location of the render it
    ran in, and is the only change to the watches. *)
Lemma run_effect_watch (w : HookWorld) :
  match returned (run_effect true w) with
  | Some (mkCleanup (Some s)) =>
      s = next_subscription w
      /\ watchers (world (run_effect true w))
         = <[s := OnPosition (location (app w))]> (watchers w)
  | _ => watchers (world (run_effect true w)) = watchers w
  end.
Proof.
  unfold run_effect, effect, bind, detached, startTracking. simpl.
  destruct (loadLocation_state w) as (_ & _ & _ & Hw & Hn).
  unfold after in Hw, Hn. destruct (loadLocation w) as [r0 w1]. simpl in *.
  unfold watchPosition, requestPermissions, watchPositionAsync, try_catch, bind,
    on_provider, throw, ret, LocationService.console_error. simpl.
  destruct (Location_requestForegroundPermissionsAsync (provider w1)) as [[status|e] p1];
    simpl; [|exact Hw].
  destruct (String.eqb status "granted"); simpl; [|exact Hw].
  destruct (Location_watchPositionAsync _ p1) as [[[]|e] p2]; simpl; [|exact Hw].
  rewrite Hw, Hn. split; reflexivity.
Qed.

Lemma run_effect_off (w : HookWorld) :
  returned (run_effect false w) = None
  /\ watchers (world (run_effect false w)) = watchers w.
Proof.
  unfold run_effect, effect, bind, detached, ret. simpl.
  destruct (loadLocation_state w) as (_ & _ & _ & Hw & _).
  unfold after in Hw. destruct (loadLocation w) as [r0 w1]. simpl in *.
  split; [reflexivity | exact Hw].
Qed.

(** X15: the watch follows the flag.  Mounted with tracking off the
    hook starts no watch; a render with an unchanged flag does not run
    the effect again; switching tracking off unregisters the
    subscription, after which its reports are ignored; and a watch
    started later by switching tracking on compares with the location
    the hook held at that moment. *)
Theorem tracking_follows_the_flag
    (w : HookWorld) (c : Component (P := P)) (s : nat) (u : LocationObject) :
  (returned (mount false w) = None /\ watchers (world (mount false w)) = watchers w)
  /\ render (deps_enableTracking c) c = c
  /\ (deps_enableTracking c = true ->
      returned c = Some (mkCleanup (Some s)) ->
      watchers (world (render false c)) !! s = None
      /\ deliver s u (render false c) = render false c)
  /\ (deps_enableTracking c = false ->
      returned c = None ->
      returned (render true c) = Some (mkCleanup (Some s)) ->
      watchers (world (render true c)) !! s
      = Some (OnPosition (location (app (world c))))).
Proof.
  repeat match goal with |- _ /\ _ => split end.
  - unfold mount.
    match goal with |- context [run_effect false ?w0] =>
      exact (proj1 (run_effect_off w0)) end.
  - unfold mount.
    match goal with |- context [run_effect false ?w0] =>
      exact (proj2 (run_effect_off w0)) end.
  - unfold render. rewrite Bool.eqb_reflx. reflexivity.
  - intros Hon Hret.
    assert (watchers (world (render false c)) !! s = None) as Hgone.
    { unfold render. rewrite Hon, Hret.
      change (Bool.eqb false true) with false. cbv iota.
      destruct (run_effect_off (run_cleanup (Some (mkCleanup (Some s))) (world c)))
        as (_ & ->).
      simpl. apply lookup_delete_eq. }
    split; [exact Hgone|]. unfold deliver. rewrite Hgone. reflexivity.
  - intros Hoff Hnone Hsub.
    unfold render in *. rewrite Hoff, Hnone in *.
    change (Bool.eqb true false) with false in *. cbv iota in *.
    change (run_cleanup None (world c)) with (world c) in *.
    pose proof (run_effect_watch (world c)) as Hw. rewrite Hsub in Hw.
    destruct Hw as (_ & ->). apply lookup_insert_eq.
Qed.


End AnyHook.

Lemma loadLocation_with_fix_witness :
  location (app (after (loadLocation (H := offlinePlatform)) holding)) = Some berlin
  /\ cityInfo (app (after (loadLocation (H := offlinePlatform)) holding)) = None.
Proof.
  pose proof (loadLocation_with_fix (H := offlinePlatform) holding tt tt
                (mkLocationObject berlin 0) eq_refl eq_refl) as (_ & Hloc & _ & _ & Hcity).
  split; [exact Hloc | apply Hcity; reflexivity].
Defined.

Lemma insignificant_update_changes_nothing_witness :
  deliver (H := grantedPlatform) (H0 := specDistance) 0 (report second_report)
    tracking_component
  = tracking_component.
Proof.
  refine (insignificant_update_changes_nothing (H := grantedPlatform) (H0 := specDistance)
            0 (Some first_report) (report second_report) tracking_component _ _);
    vm_compute; reflexivity.
Defined.


Lemma nothing_without_permission_witness :
  result (getCurrentLocation (H := deniedPlatform)) holding = Ok None.
Proof.
  refine (f_equal fst (proj1
    (nothing_without_permission (H := deniedPlatform) holding "denied" tt
       (OnPosition None) None _ _)));
    [reflexivity | discriminate].
Defined.

End LocationExtras.
